(** * Polly-API client: a shallow embedding of the request/validate functions

    The repository is a thin Python client over a polling HTTP API:
    - [src/api/register_user.py] : [register_user]
    - [src/api/fetch_polls.py]   : [fetch_polls], [fetch_polls_with_validation]
    - [src/api/poll_client.py]   : [vote_on_poll], [get_poll_results]

    Every function builds a request, sends it, branches on the status code
    and validates the decoded JSON.  The embedding keeps that shape: decoded
    JSON is an inductive type, a Python [dict] is a [gmap string json],
    exceptions are an error monad, and the network (the [requests] library
    and the server behind it) is a parameter of the development. *)

From Stdlib Require Import Ascii SpecFloat.
From stdpp Require Import base strings gmap list pretty.

Set Default Proof Using "Type".

(** ** Values produced by [response.json()] *)

(** What Python's [json] module decodes to: [None], [bool], [int] (unbounded),
    [float] (the IEEE 754 datum of a binary64), [str], [list] and [dict] with
    [str] keys. *)
#[warnings="-register-all"]
Inductive json : Type :=
  | JNull
  | JBool (b : bool)
  | JInt (n : Z)
  | JFloat (x : spec_float)
  | JStr (s : string)
  | JList (items : list json)
  | JDict (fields : gmap string json).

(** ** Exceptions and the error monad *)

(** The exception classes the client meets.  [ValueError] and
    [RequestException] carry the message the source gives them;
    [JSONDecodeError] is [requests.exceptions.JSONDecodeError], what
    [response.json()] raises on an undecodable body, and is a subclass of
    [RequestException].  [TypeError], [AttributeError] and [KeyError] are the
    interpreter's own (their texts are the interpreter's and are left out). *)
Inductive exn : Type :=
  | ValueError (msg : string)
  | RequestException (msg : string)
  | JSONDecodeError (msg : string)
  | TypeError
  | AttributeError
  | KeyError (key : string).

Inductive result (A : Type) : Type :=
  | Ok (a : A)
  | Raise (e : exn).
Arguments Ok {A} a.
Arguments Raise {A} e.

Global Instance result_ret : MRet result := λ A, @Ok A.
Global Instance result_bind : MBind result := λ A B f m,
  match m with
  | Ok a => f a
  | Raise e => Raise e
  end.

(** [isinstance(e, requests.exceptions.RequestException)] *)
Definition is_RequestException (e : exn) : bool :=
  match e with
  | RequestException _ | JSONDecodeError _ => true
  | _ => false
  end.

(** [str(e)]: the message.  Only the two classes caught by an
    [except ... as e] clause ever reach it. *)
Definition exn_str (e : exn) : string :=
  match e with
  | ValueError msg | RequestException msg | JSONDecodeError msg => msg
  | TypeError | AttributeError | KeyError _ => ""
  end.

(** [try: body  except: handler] (a bare [except] catches every exception). *)
Definition try_except {A} (body handler : result A) : result A :=
  match body with
  | Ok a => Ok a
  | Raise _ => handler
  end.

(** [try: body  except requests.exceptions.RequestException as e: handler e] *)
Definition try_except_RequestException {A}
    (body : result A) (handler : exn → result A) : result A :=
  match body with
  | Ok a => Ok a
  | Raise e => if is_RequestException e then handler e else Raise e
  end.

(** ** Python operators on decoded values *)

(** [needle in haystack] on two [str]: substring search. *)
Fixpoint contains (needle haystack : string) : bool :=
  String.prefix needle haystack
  || match haystack with
     | EmptyString => false
     | String _ rest => contains needle rest
     end.

(** [field in container] with [field] a [str].  On a [dict] it tests the
    keys, on a [list] it compares with the elements (only a [str] equals a
    [str]), on a [str] it searches a substring; the other decoded values are
    not containers and the interpreter raises [TypeError]. *)
Definition py_in (field : string) (container : json) : result bool :=
  match container with
  | JDict fields => Ok (bool_decide (is_Some (fields !! field)))
  | JList items =>
      Ok (existsb (λ v, match v with
                        | JStr s => bool_decide (s = field)
                        | _ => false
                        end) items)
  | JStr s => Ok (contains field s)
  | JNull | JBool _ | JInt _ | JFloat _ => Raise TypeError
  end.

(** [container[key]] with [key] a [str]: a [dict] lookup ([KeyError] when
    absent); a [list] or [str] wants an integer index and the rest cannot be
    subscripted, [TypeError] in both cases. *)
Definition py_getitem (container : json) (key : string) : result json :=
  match container with
  | JDict fields =>
      match fields !! key with
      | Some v => Ok v
      | None => Raise (KeyError key)
      end
  | _ => Raise TypeError
  end.

(** [obj.get(key, default)]: only a [dict] has the method. *)
Definition py_get (obj : json) (key : string) (fallback : json) : result json :=
  match obj with
  | JDict fields => Ok (default fallback (fields !! key))
  | _ => Raise AttributeError
  end.

(** [isinstance(v, int)]; [bool] is a subclass of [int] in Python. *)
Definition isinstance_int (v : json) : bool :=
  match v with
  | JInt _ | JBool _ => true
  | _ => false
  end.

(** [isinstance(v, str)] *)
Definition isinstance_str (v : json) : bool :=
  match v with
  | JStr _ => true
  | _ => false
  end.

(** [isinstance(v, list)] *)
Definition isinstance_list (v : json) : bool :=
  match v with
  | JList _ => true
  | _ => false
  end.

(** ** The HTTP exchange *)

Inductive http_method : Type := GET | POST.

(** What the client hands to [requests.get] / [requests.post]. *)
Record request : Type := Request {
  req_method : http_method;
  req_url : string;
  req_params : list (string * Z);
  req_json : option json;
  req_headers : list (string * string)
}.

(** The body of a response as [response.json()] sees it: decodable to a
    value, or not (empty, HTML, truncated, ...) with the decoder's message. *)
Inductive body : Type :=
  | JsonBody (v : json)
  | NotJson (why : string).

Record response : Type := Response {
  status_code : Z;
  response_body : body
}.

(** [response.json()] *)
Definition response_json (r : response) : result json :=
  match response_body r with
  | JsonBody v => Ok v
  | NotJson why => Raise (JSONDecodeError why)
  end.

(** What comes back from the library: a response, or a transport failure
    (DNS, refused connection, timeout) raised as a [RequestException]. *)
Inductive reply : Type :=
  | Responded (r : response)
  | TransportFailure (why : string).

(** [for i, x in enumerate(xs): body(i, x)] with the counter at [start]:
    the first exception leaves the loop. *)
Fixpoint for_enumerate {A} (body : nat → A → result ())
    (start : nat) (xs : list A) : result () :=
  match xs with
  | [] => Ok ()
  | x :: xs' =>
      body start x;;
      for_enumerate body (S start) xs'
  end.

Section Client.

(** The [requests] library together with the server behind it. *)
Variable network : request → reply.

(** [str(v)] for a [float], [list] or [dict]: the interpreter's [repr],
    which the client only ever splices into an error message. *)
Variable py_repr : json → string.

Definition requests_send (req : request) : result response :=
  match network req with
  | Responded r => Ok r
  | TransportFailure why => Raise (RequestException why)
  end.

(** [str(v)], as an f-string applies it to an interpolated value. *)
Definition py_str (v : json) : string :=
  match v with
  | JStr s => s
  | JInt n => pretty n
  | JBool true => "True"
  | JBool false => "False"
  | JNull => "None"
  | JFloat _ | JList _ | JDict _ => py_repr v
  end.

(** The loop
    [for field in fields: if field not in obj: raise ValueError(missing(field))]
    shared by every validator. *)
Fixpoint require_fields (missing : string → string)
    (fields : list string) (obj : json) : result () :=
  match fields with
  | [] => Ok ()
  | field :: fields' =>
      present ← py_in field obj;
      if present : bool then require_fields missing fields' obj
      else Raise (ValueError (missing field))
  end.

(** The block every [else] branch of [poll_client.py] and
    [fetch_polls.py] repeats:
    [[
      try:
          error_data = response.json()
          error_message = error_data.get("detail", "Unknown error")
      except:
          error_message = f"HTTP {response.status_code}"
    ]] *)
Definition error_message_of (response : response) : result json :=
  try_except
    (error_data ← response_json response;
     py_get error_data "detail" (JStr "Unknown error"))
    (Ok (JStr ("HTTP " +:+ pretty (status_code response)))).

(** *** [src/api/fetch_polls.py] *)

Definition fetch_polls_request (skip limit : Z) (base_url : string) : request :=
  {| req_method := GET;
     req_url := base_url +:+ "/polls";
     req_params := [("skip", skip); ("limit", limit)];
     req_json := None;
     req_headers := [] |}.

Definition fetch_polls (skip limit : Z) (base_url : string)
    : result (list json) :=
  try_except_RequestException
    (response ← requests_send (fetch_polls_request skip limit base_url);
     if decide (status_code response = 200%Z) then
       polls_data ← response_json response;
       match polls_data with
       | JList polls => Ok polls
       | _ => Raise (ValueError "Expected a list of polls in the response")
       end
     else
       error_message ← error_message_of response;
       Raise (ValueError ("Failed to fetch polls: " +:+ py_str error_message)))
    (λ e, Raise (RequestException ("Request failed: " +:+ exn_str e))).

Definition required_fields : list string :=
  ["id"; "question"; "created_at"; "owner_id"; "options"].

Definition option_required_fields : list string :=
  ["id"; "text"; "poll_id"].

Definition poll_missing (i : nat) (field : string) : string :=
  "Poll at index " +:+ pretty i +:+ " is missing required field: " +:+ field.

Definition poll_mistyped (i : nat) (field type : string) : string :=
  "Poll at index " +:+ pretty i +:+ ": '" +:+ field +:+ "' must be " +:+ type.

Definition option_missing (i j : nat) (field : string) : string :=
  "Poll " +:+ pretty i +:+ ", option " +:+ pretty j
    +:+ " is missing required field: " +:+ field.

(** The body of the loop over [poll["options"]], option [j] of poll [i]. *)
Definition validate_option (i j : nat) (option : json) : result () :=
  require_fields (option_missing i j) option_required_fields option.

(** The body of the loop over the polls, for the poll at index [i].  The
    source reads [poll["options"]] twice, for the [isinstance] test and for
    the loop over it; the [match] below is both. *)
Definition validate_poll (i : nat) (poll : json) : result () :=
  require_fields (poll_missing i) required_fields poll;;
  id ← py_getitem poll "id";
  (if isinstance_int id then Ok ()
   else Raise (ValueError (poll_mistyped i "id" "an integer")));;
  question ← py_getitem poll "question";
  (if isinstance_str question then Ok ()
   else Raise (ValueError (poll_mistyped i "question" "a string")));;
  owner_id ← py_getitem poll "owner_id";
  (if isinstance_int owner_id then Ok ()
   else Raise (ValueError (poll_mistyped i "owner_id" "an integer")));;
  options ← py_getitem poll "options";
  match options with
  | JList options => for_enumerate (validate_option i) 0 options
  | _ => Raise (ValueError (poll_mistyped i "options" "a list"))
  end.

Definition fetch_polls_with_validation (skip limit : Z) (base_url : string)
    : result (list json) :=
  polls ← fetch_polls skip limit base_url;
  for_enumerate validate_poll 0 polls;;
  Ok polls.

(** *** [src/api/poll_client.py] *)

Definition vote_request (poll_id option_id : Z)
    (access_token base_url : string) : request :=
  {| req_method := POST;
     req_url := base_url +:+ "/polls/" +:+ pretty poll_id +:+ "/vote";
     req_params := [];
     req_json := Some (JDict {[ "option_id" := JInt option_id ]});
     req_headers := [("Authorization", "Bearer " +:+ access_token);
                     ("Content-Type", "application/json")] |}.

Definition response_missing (field : string) : string :=
  "Invalid response: missing field '" +:+ field +:+ "'".

Definition vote_required_fields : list string :=
  ["id"; "user_id"; "option_id"; "created_at"].

Definition vote_on_poll (poll_id option_id : Z)
    (access_token base_url : string) : result json :=
  try_except_RequestException
    (response ← requests_send
                  (vote_request poll_id option_id access_token base_url);
     if decide (status_code response = 200%Z) then
       vote_data ← response_json response;
       require_fields response_missing vote_required_fields vote_data;;
       Ok vote_data
     else
       error_message ← error_message_of response;
       if decide (status_code response = 401%Z) then
         Raise (ValueError "Unauthorized: Invalid or expired access token")
       else if decide (status_code response = 404%Z) then
         Raise (ValueError "Poll or option not found")
       else
         Raise (ValueError
                  ("Failed to vote on poll: " +:+ py_str error_message)))
    (λ e, Raise (RequestException ("Request failed: " +:+ exn_str e))).

Definition results_request (poll_id : Z) (base_url : string) : request :=
  {| req_method := GET;
     req_url := base_url +:+ "/polls/" +:+ pretty poll_id +:+ "/results";
     req_params := [];
     req_json := None;
     req_headers := [] |}.

Definition results_required_fields : list string :=
  ["poll_id"; "question"; "results"].

Definition result_required_fields : list string :=
  ["option_id"; "text"; "vote_count"].

Definition result_missing (i : nat) (field : string) : string :=
  "Invalid response: result " +:+ pretty i
    +:+ " missing field '" +:+ field +:+ "'".

Definition result_mistyped (i : nat) (field type : string) : string :=
  "Invalid response: result " +:+ pretty i
    +:+ " '" +:+ field +:+ "' must be " +:+ type.

(** The body of the loop over [results_data["results"]], for entry [i]. *)
Definition validate_result (i : nat) (entry : json) : result () :=
  require_fields (result_missing i) result_required_fields entry;;
  option_id ← py_getitem entry "option_id";
  (if isinstance_int option_id then Ok ()
   else Raise (ValueError (result_mistyped i "option_id" "integer")));;
  text ← py_getitem entry "text";
  (if isinstance_str text then Ok ()
   else Raise (ValueError (result_mistyped i "text" "string")));;
  vote_count ← py_getitem entry "vote_count";
  (if isinstance_int vote_count then Ok ()
   else Raise (ValueError (result_mistyped i "vote_count" "integer"))).

Definition get_poll_results (poll_id : Z) (base_url : string) : result json :=
  try_except_RequestException
    (response ← requests_send (results_request poll_id base_url);
     if decide (status_code response = 200%Z) then
       results_data ← response_json response;
       require_fields response_missing results_required_fields results_data;;
       results ← py_getitem results_data "results";
       match results with
       | JList entries =>
           for_enumerate validate_result 0 entries;;
           Ok results_data
       | _ => Raise (ValueError "Invalid response: 'results' must be a list")
       end
     else
       error_message ← error_message_of response;
       if decide (status_code response = 404%Z) then
         Raise (ValueError "Poll not found")
       else
         Raise (ValueError
                  ("Failed to get poll results: " +:+ py_str error_message)))
    (λ e, Raise (RequestException ("Request failed: " +:+ exn_str e))).

(** *** [src/api/register_user.py] *)

Definition register_request (username password base_url : string) : request :=
  {| req_method := POST;
     req_url := base_url +:+ "/register";
     req_params := [];
     req_json := Some (JDict {[ "username" := JStr username;
                                "password" := JStr password ]});
     req_headers := [] |}.

(** No [try] anywhere in this function: whatever [requests.post] or
    [response.json()] raises reaches the caller as it is.  The [and] of the
    source is short-circuit: the [detail] is only searched at status 400. *)
Definition register_user (username password base_url : string) : result json :=
  response ← requests_send (register_request username password base_url);
  if decide (status_code response = 200%Z) then
    response_json response
  else
    error_data ← response_json response;
    already_registered ←
      (if decide (status_code response = 400%Z) then
         detail ← py_get error_data "detail" (JStr "");
         py_in "Username already registered" detail
       else Ok false);
    if already_registered : bool then
      Raise (ValueError "Username already registered")
    else
      detail ← py_get error_data "detail" (JStr "Unknown error");
      Raise (ValueError ("Registration failed: " +:+ py_str detail)).

End Client.

(** ** The schemas of the specification *)

(** A key is present in an object. *)
Definition has_field (d : gmap string json) (field : string) : bool :=
  bool_decide (is_Some (d !! field)).

(** One line of a schema: a field, the test of its type and the wording of
    the type in the error message. *)
Definition typed_field : Type := string * (json → bool) * string.

(** The field is present and its value passes the test of its type. *)
Definition well_typed (d : gmap string json) (entry : typed_field) : bool :=
  from_option entry.1.2 false (d !! entry.1.1).

(** Poll: id (integer), question (string), owner_id (integer), options
    (sequence); created_at has no type of its own. *)
Definition poll_field_types : list typed_field :=
  [("id", isinstance_int, "an integer");
   ("question", isinstance_str, "a string");
   ("owner_id", isinstance_int, "an integer");
   ("options", isinstance_list, "a list")].

(** PollResults entry: option_id (integer), text (string),
    vote_count (integer). *)
Definition result_field_types : list typed_field :=
  [("option_id", isinstance_int, "integer");
   ("text", isinstance_str, "string");
   ("vote_count", isinstance_int, "integer")].

(** An option object carrying its three required fields. *)
Definition well_formed_option (option : json) : bool :=
  match option with
  | JDict d => forallb (has_field d) option_required_fields
  | _ => false
  end.

(** The poll-level part of the schema: the five fields are present and the
    four typed ones have their type. *)
Definition poll_fields_ok (d : gmap string json) : bool :=
  forallb (has_field d) required_fields
  && forallb (well_typed d) poll_field_types.

(** A well-formed poll object: the poll-level schema, and every element of
    [options] a well-formed option. *)
Definition well_formed_poll (poll : json) : bool :=
  match poll with
  | JDict d =>
      poll_fields_ok d
      && match d !! "options" with
         | Some (JList options) => forallb well_formed_option options
         | _ => false
         end
  | _ => false
  end.

(** A well-formed entry of [results]. *)
Definition well_formed_result (entry : json) : bool :=
  match entry with
  | JDict d =>
      forallb (has_field d) result_required_fields
      && forallb (well_typed d) result_field_types
  | _ => false
  end.

(** The poll with its [created_at] replaced by [stamp]. *)
Definition with_created_at (stamp poll : json) : json :=
  match poll with
  | JDict d => JDict (<["created_at" := stamp]> d)
  | _ => poll
  end.

(** What a validator can object to in one object. *)
Inductive violation : Type :=
  | Missing (field : string)
  | Mistyped (field type : string).

(** The object breaks the schema: a required field is absent, or a typed
    field does not hold a value of its type. *)
Definition offends (fields : list string) (types : list typed_field)
    (d : gmap string json) : Prop :=
  (∃ field, field ∈ fields ∧ d !! field = None)
  ∨ (∃ entry, entry ∈ types ∧ well_typed d entry = false).

(** The first violation of an object, in the order of the validators:
    presence of the fields in the order of [fields] and, once all are
    present, the types in the order of [types]. *)
Inductive first_violation (fields : list string) (types : list typed_field)
    (d : gmap string json) : violation → Prop :=
  | first_missing before field after :
      fields = before ++ field :: after →
      forallb (has_field d) before = true →
      d !! field = None →
      first_violation fields types d (Missing field)
  | first_mistyped before field check type after :
      forallb (has_field d) fields = true →
      types = before ++ (field, check, type) :: after →
      forallb (well_typed d) before = true →
      well_typed d (field, check, type) = false →
      first_violation fields types d (Mistyped field type).

Definition poll_error (i : nat) (v : violation) : string :=
  match v with
  | Missing field => poll_missing i field
  | Mistyped field type => poll_mistyped i field type
  end.


(** The message of the generic failure of an operation when the error body
    gave no detail: what the operation was, then the status code. *)
Definition fallback_message (what : string) (status : Z) : string :=
  what +:+ ": HTTP " +:+ pretty status.

(** ** Scenarios *)

Definition localhost : string := "http://localhost:8000".

(** A server that answers every request with the same status and body. *)
Definition answers (status : Z) (content : body) : request → reply :=
  λ _, Responded {| status_code := status; response_body := content |}.

(** A rendering of floats, lists and dicts for the scenarios, none of which
    prints one. *)
Definition no_repr : json → string := λ _, "".

Definition option_yes : json :=
  JDict {[ "id" := JInt 1; "text" := JStr "Yes"; "poll_id" := JInt 7 ]}.

Definition poll_example_fields : gmap string json :=
  {[ "id" := JInt 7; "question" := JStr "Q?";
     "created_at" := JStr "2024-01-01T00:00:00Z";
     "owner_id" := JInt 3; "options" := JList [option_yes] ]}.

Definition poll_example : json := JDict poll_example_fields.

(** A poll without its question. *)
Definition poll_without_question : gmap string json :=
  {[ "id" := JInt 8; "created_at" := JStr "2024-01-02T00:00:00Z";
     "owner_id" := JInt 3; "options" := JList [] ]}.

(** An option without its text. *)
Definition option_without_text : gmap string json :=
  {[ "id" := JInt 2; "poll_id" := JInt 9 ]}.

(** A poll that passes its own checks and holds, after a complete option,
    the option without text. *)
Definition poll_with_bad_option : gmap string json :=
  {[ "id" := JInt 9; "question" := JStr "Why?";
     "created_at" := JStr "2024-01-03T00:00:00Z"; "owner_id" := JInt 3;
     "options" := JList [option_yes; JDict option_without_text] ]}.

(** A poll whose id is a string and whose only option is the one without
    text: two violations, the poll-level one first. *)
Definition poll_bad_id_bad_option : gmap string json :=
  {[ "id" := JStr "nine"; "question" := JStr "Why?";
     "created_at" := JStr "2024-01-03T00:00:00Z"; "owner_id" := JInt 3;
     "options" := JList [JDict option_without_text] ]}.

(** [{"id":9,"user_id":3,"option_id":2,"created_at":"2024-01-01T00:00:00Z"}] *)
Definition vote_example : gmap string json :=
  {[ "id" := JInt 9; "user_id" := JInt 3; "option_id" := JInt 2;
     "created_at" := JStr "2024-01-01T00:00:00Z" ]}.

(** The four keys of a vote under values of other types. *)
Definition vote_odd_types : gmap string json :=
  {[ "id" := JStr "nine"; "user_id" := JNull; "option_id" := JList [];
     "created_at" := JInt 5 ]}.

(** [{"poll_id":1,"question":"Q?","results":[{"option_id":2,"text":"Yes","vote_count":5}]}] *)
Definition results_example : gmap string json :=
  {[ "poll_id" := JInt 1; "question" := JStr "Q?";
     "results" := JList [JDict {[ "option_id" := JInt 2; "text" := JStr "Yes";
                                  "vote_count" := JInt 5 ]}] ]}.

(** [{"detail":"Username already registered"}] *)
Definition duplicate_detail : gmap string json :=
  {[ "detail" := JStr "Username already registered" ]}.

(** What the decoder says of an empty body. *)
Definition empty_body : body :=
  NotJson "Expecting value: line 1 column 1 (char 0)".

Definition polls_second_lacks_question : list json :=
  [poll_example; JDict poll_without_question].

Definition polls_second_has_bad_option : list json :=
  [poll_example; JDict poll_with_bad_option].

(** ** Further notions for the properties of the whole client *)

(** The detail an error body offers: the [str()] of its [detail] field, or
    the default of [.get("detail", "Unknown error")]. *)
Definition detail_text (py_repr : json → string) (d : gmap string json)
    : string :=
  match d !! "detail" with
  | Some v => py_str py_repr v
  | None => "Unknown error"
  end.

(** The decoded values that are no container: [None], [bool], [int],
    [float]. *)
Definition is_scalar (v : json) : bool :=
  match v with
  | JNull | JBool _ | JInt _ | JFloat _ => true
  | JStr _ | JList _ | JDict _ => false
  end.

Definition is_digit (c : ascii) : bool :=
  match c with
  | "0" | "1" | "2" | "3" | "4" | "5" | "6" | "7" | "8" | "9" => true
  | _ => false
  end%char.

Fixpoint all_digits (s : string) : bool :=
  match s with
  | EmptyString => true
  | String c rest => is_digit c && all_digits rest
  end.

(** A network on which no request gets through. *)
Definition unreachable (why : string) : request → reply :=
  λ _, TransportFailure why.

(** [{"detail":"Poll is closed"}] *)
Definition closed_detail : gmap string json :=
  {[ "detail" := JStr "Poll is closed" ]}.

(** A vote without its [option_id]. *)
Definition vote_without_option : gmap string json :=
  {[ "id" := JInt 9; "user_id" := JInt 3;
     "created_at" := JStr "2024-01-01T00:00:00Z" ]}.

(** A detail that wraps the duplicate phrase in other words. *)
Definition duplicate_detail_embedded : gmap string json :=
  {[ "detail" := JStr ("Error: " +:+ "Username already registered" +:+ ".") ]}.

(** A list whose second element is [null]. *)
Definition polls_second_is_null : list json := [poll_example; JNull].


(** Results whose second entry lacks its [text]. *)
Definition results_second_lacks_text : gmap string json :=
  {[ "poll_id" := JInt 1; "question" := JStr "Q?";
     "results" :=
       JList [JDict {[ "option_id" := JInt 2; "text" := JStr "Yes";
                       "vote_count" := JInt 5 ]};
              JDict {[ "option_id" := JInt 3; "vote_count" := JInt 0 ]}] ]}.

(** [{"detail": null}] *)
Definition null_detail : gmap string json :=
  {[ "detail" := JNull ]}.

(** ** Proof steps shared by the validators *)

Ltac split_andb :=
  repeat match goal with
         | H : _ && _ = true |- _ => apply andb_prop in H as [? ?]
         end.

(** Reads the fields a schema talks about, one [dict] lookup at a time. *)
Ltac read_field d key :=
  let v := fresh "v" in
  let E := fresh "E" in
  destruct (d !! key) as [v|] eqn:E; simpl in *; try discriminate.

(** Runs the binds and subscripts whose argument is known. *)
Ltac run_binds := cbn [mbind result_bind py_getitem].

(** ** The error monad and the loops *)

Lemma bind_Ok {A B} (f : A → result B) (a : A) : Ok a ≫= f = f a.
Proof. reflexivity. Qed.

Lemma bind_Raise {A B} (f : A → result B) (e : exn) : Raise e ≫= f = Raise e.
Proof. reflexivity. Qed.

Lemma bind_Ok_inv {A B} (f : A → result B) (m : result A) (b : B) :
  m ≫= f = Ok b → ∃ a, m = Ok a ∧ f a = Ok b.
Proof. destruct m as [a|e]; [eauto | discriminate]. Qed.

Lemma forallb_first_false {A} (p : A → bool) (l : list A) :
  forallb p l = false →
  ∃ before x after,
    l = before ++ x :: after ∧ forallb p before = true ∧ p x = false.
Proof.
  induction l as [|y l IH]; simpl; [discriminate|].
  destruct (p y) eqn:Hy; simpl.
  - intros (before & x & after & -> & Hb & Hx)%IH.
    exists (y :: before), x, after. simpl. by rewrite Hy.
  - intros _. by exists [], y, l.
Qed.

Lemma forallb_lookup {A} (p : A → bool) (l : list A) (k : nat) (x : A) :
  forallb p l = true → l !! k = Some x → p x = true.
Proof.
  revert k. induction l as [|y l IH]; intros [|k]; simpl; try done.
  - intros [? _]%andb_prop [= <-]. done.
  - intros [_ ?]%andb_prop. by apply IH.
Qed.

(** The loop succeeds when its body does at every position. *)
Lemma for_enumerate_ok {A} (body : nat → A → result ()) (xs : list A) start :
  (∀ k x, xs !! k = Some x → body (start + k) x = Ok ()) →
  for_enumerate body start xs = Ok ().
Proof.
  revert start. induction xs as [|x xs IH]; intros start Hbody; [done|].
  simpl. specialize (Hbody 0 x eq_refl) as Hx.
  rewrite Nat.add_0_r in Hx. rewrite Hx, bind_Ok.
  apply IH. intros k y Hy. specialize (Hbody (S k) y Hy).
  by rewrite Nat.add_succ_r in Hbody.
Qed.

(** The loop leaves with the exception of the first position where its body
    raises one. *)
Lemma for_enumerate_raise {A} (body : nat → A → result ())
    (xs : list A) start k x e :
  xs !! k = Some x →
  (∀ k' x', k' < k → xs !! k' = Some x' → body (start + k') x' = Ok ()) →
  body (start + k) x = Raise e →
  for_enumerate body start xs = Raise e.
Proof.
  revert start k. induction xs as [|y xs IH]; intros start [|k]; simpl; try done.
  - intros [= ->] _. rewrite Nat.add_0_r. by intros ->.
  - intros Hx Hbefore Hraise.
    specialize (Hbefore 0 y (Nat.lt_0_succ k) eq_refl) as Hy.
    rewrite Nat.add_0_r in Hy. rewrite Hy, bind_Ok.
    apply (IH (S start) k); [done| |by rewrite Nat.add_succ_r in Hraise].
    intros k' x' Hk' Hx'.
    specialize (Hbefore (S k') x' (proj1 (Nat.succ_lt_mono k' k) Hk') Hx').
    by rewrite Nat.add_succ_r in Hbefore.
Qed.

(** A loop that ran to its end found nothing to raise anywhere. *)
Lemma for_enumerate_Ok_inv {A} (body : nat → A → result ())
    (xs : list A) start k x :
  for_enumerate body start xs = Ok () →
  xs !! k = Some x → body (start + k) x = Ok ().
Proof.
  revert start k. induction xs as [|y xs IH]; intros start [|k]; simpl; try done.
  - intros ([] & Hy & _)%bind_Ok_inv [= <-]. by rewrite Nat.add_0_r.
  - intros ([] & _ & Hrest)%bind_Ok_inv Hx.
    rewrite Nat.add_succ_r. by apply (IH (S start) k).
Qed.

(** ** Presence checks *)

Lemma py_in_dict (d : gmap string json) (field : string) :
  py_in field (JDict d) = Ok (has_field d field).
Proof. reflexivity. Qed.

Lemma has_field_false (d : gmap string json) (field : string) :
  has_field d field = false ↔ d !! field = None.
Proof.
  unfold has_field. rewrite bool_decide_eq_false, <-eq_None_not_Some. done.
Qed.

Lemma has_field_true (d : gmap string json) (field : string) :
  has_field d field = true ↔ is_Some (d !! field).
Proof. unfold has_field. by rewrite bool_decide_eq_true. Qed.

Lemma require_fields_present missing fields (d : gmap string json) :
  forallb (has_field d) fields = true →
  require_fields missing fields (JDict d) = Ok ().
Proof.
  induction fields as [|field fields IH]; cbn [require_fields forallb]; [done|].
  intros [Hf ?]%andb_prop. rewrite py_in_dict, Hf, bind_Ok. by apply IH.
Qed.

Lemma require_fields_first_missing missing before field after
    (d : gmap string json) :
  forallb (has_field d) before = true →
  d !! field = None →
  require_fields missing (before ++ field :: after) (JDict d)
  = Raise (ValueError (missing field)).
Proof.
  intros Hbefore Hfield.
  induction before as [|f before IH]; cbn [app require_fields].
  - apply has_field_false in Hfield. by rewrite py_in_dict, Hfield.
  - cbn [forallb] in Hbefore. apply andb_prop in Hbefore as [Hf ?].
    rewrite py_in_dict, Hf, bind_Ok. by apply IH.
Qed.

Lemma require_fields_Ok_inv missing fields (d : gmap string json) :
  require_fields missing fields (JDict d) = Ok () →
  forallb (has_field d) fields = true.
Proof.
  induction fields as [|field fields IH]; cbn [require_fields forallb]; [done|].
  rewrite py_in_dict, bind_Ok.
  destruct (has_field d field); [apply IH|discriminate].
Qed.

(** An object that fails a schema has a first violation. *)
Lemma schema_fails_first_violation fields types (d : gmap string json) :
  forallb (has_field d) fields && forallb (well_typed d) types = false →
  ∃ v, first_violation fields types d v.
Proof.
  destruct (forallb (has_field d) fields) eqn:Hfields; simpl.
  - intros (before & [[field check] type] & after & -> & Hb & Hx)
      %forallb_first_false.
    exists (Mistyped field type). by eapply first_mistyped.
  - intros _. apply forallb_first_false in Hfields
      as (before & field & after & -> & Hb & Hx%has_field_false).
    exists (Missing field). by eapply first_missing.
Qed.

Lemma offends_schema_fails fields types (d : gmap string json) :
  offends fields types d →
  forallb (has_field d) fields && forallb (well_typed d) types = false.
Proof.
  intros [(field & Hin & Hnone)|(entry & Hin & Hbad)];
    apply andb_false_iff; [left|right];
    apply not_true_is_false; rewrite forallb_forall; intros Hall;
    apply list_elem_of_In in Hin; specialize (Hall _ Hin).
  - apply has_field_false in Hnone. congruence.
  - congruence.
Qed.

Lemma offends_first_violation fields types (d : gmap string json) :
  offends fields types d → ∃ v, first_violation fields types d v.
Proof.
  intros Hoff. by apply schema_fails_first_violation, offends_schema_fails.
Qed.

(** With no typed field in the schema, the first violation is a missing
    field. *)
Lemma missing_first_violation fields (d : gmap string json) :
  (∃ field, field ∈ fields ∧ d !! field = None) →
  ∃ field, first_violation fields [] d (Missing field).
Proof.
  intros Hmissing.
  destruct (offends_first_violation fields [] d) as [v Hv]; [by left|].
  destruct Hv as [before field after ? ? ?|before ? ? ? ? ? Hsplit ? ?].
  - exists field. by eapply first_missing.
  - by destruct before.
Qed.

(** ** The validators of [fetch_polls_with_validation] *)

Lemma validate_option_ok i j option :
  well_formed_option option = true → validate_option i j option = Ok ().
Proof.
  destruct option as [| | | | | |d]; try discriminate.
  apply require_fields_present.
Qed.

Lemma validate_options_ok i options :
  forallb well_formed_option options = true →
  for_enumerate (validate_option i) 0 options = Ok ().
Proof.
  intros Hall. apply for_enumerate_ok. intros k x Hx.
  apply validate_option_ok. by eapply forallb_lookup.
Qed.

(** Once the poll-level checks pass, what is left of the loop body is the
    loop over the options. *)
Lemma validate_poll_options i (d : gmap string json) options :
  poll_fields_ok d = true →
  d !! "options" = Some (JList options) →
  validate_poll i (JDict d) = for_enumerate (validate_option i) 0 options.
Proof.
  unfold poll_fields_ok, validate_poll. intros Hok Hoptions. split_andb.
  rewrite require_fields_present by done. rewrite bind_Ok.
  unfold well_typed in *. simpl in *. split_andb.
  rewrite Hoptions in *.
  read_field d "id". read_field d "question". read_field d "owner_id".
  repeat match goal with H : ?b = true |- _ => rewrite H end.
  reflexivity.
Qed.

Lemma validate_poll_ok i poll :
  well_formed_poll poll = true → validate_poll i poll = Ok ().
Proof.
  destruct poll as [| | | | | |d]; simpl; try discriminate.
  intros [Hok Hoptions]%andb_prop.
  destruct (d !! "options") as [[| | | | |options|]|] eqn:E; try discriminate.
  rewrite (validate_poll_options i d options) by done.
  by apply validate_options_ok.
Qed.

Lemma validate_polls_ok polls :
  forallb well_formed_poll polls = true →
  for_enumerate validate_poll 0 polls = Ok ().
Proof.
  intros Hall. apply for_enumerate_ok. intros k x Hx.
  apply validate_poll_ok. by eapply forallb_lookup.
Qed.

(** The loop body raises the first violation of a poll object, worded with
    the poll's index. *)
Lemma validate_poll_first_violation i (d : gmap string json) v :
  first_violation required_fields poll_field_types d v →
  validate_poll i (JDict d) = Raise (ValueError (poll_error i v)).
Proof.
  unfold validate_poll.
  intros [before field after Hsplit Hbefore Hnone
         |before field check type after Hfields Hsplit Hbefore Hbad].
  - rewrite Hsplit, require_fields_first_missing by done. reflexivity.
  - rewrite require_fields_present by done. rewrite bind_Ok.
    unfold required_fields in Hfields. cbn [forallb] in Hfields. split_andb.
    repeat match goal with
           | H : has_field _ _ = true |- _ =>
               let v := fresh "v" in apply has_field_true in H as [v H]
           end.
    unfold poll_field_types in Hsplit.
    destruct before as [|b1 [|b2 [|b3 [|b4 before]]]];
      simplify_eq/=; [| | | |by destruct before];
      unfold well_typed in *; simpl in *; split_andb;
      repeat match goal with
             | E : d !! _ = Some _ |- _ => rewrite E in *; clear E
             end;
      simpl in *;
      repeat match goal with H : _ = true |- _ => rewrite H; clear H end;
      repeat match goal with H : _ = false |- _ => rewrite H end;
      try reflexivity.
    match goal with H : isinstance_list ?o = false |- _ => by destruct o end.
Qed.

(** Replacing [created_at] by any value keeps a poll well-formed: the schema
    gives that field no type. *)
Lemma well_formed_with_created_at stamp poll :
  well_formed_poll poll = true →
  well_formed_poll (with_created_at stamp poll) = true.
Proof.
  destruct poll as [| | | | | |d]; try discriminate.
  unfold with_created_at, well_formed_poll, poll_fields_ok, well_typed.
  unfold required_fields, poll_field_types, has_field. simpl.
  rewrite lookup_insert_eq.
  rewrite !lookup_insert_ne by discriminate.
  intros H. split_andb.
  repeat (apply andb_true_intro; split); done.
Qed.

Lemma well_formed_zip_created_at stamps polls :
  forallb well_formed_poll polls = true →
  forallb well_formed_poll (zip_with with_created_at stamps polls) = true.
Proof.
  revert stamps. induction polls as [|poll polls IH]; intros [|stamp stamps];
    simpl; try done.
  intros [? ?]%andb_prop. apply andb_true_intro.
  split; [by apply well_formed_with_created_at | by apply IH].
Qed.

(** ** Properties of [fetch_polls] and [fetch_polls_with_validation] *)

Section FetchPolls.

Context (network : request → reply) (py_repr : json → string).
Context (skip limit : Z) (base_url : string).

(** A 200 response carrying a JSON list is handed back as that list. *)
Lemma fetch_polls_200 polls :
  network (fetch_polls_request skip limit base_url)
  = Responded {| status_code := 200; response_body := JsonBody (JList polls) |} →
  fetch_polls network py_repr skip limit base_url = Ok polls.
Proof. intros Hnet. unfold fetch_polls, requests_send. by rewrite Hnet. Qed.

(** The validating variant is the loop over what [fetch_polls] returned. *)
Lemma fetch_polls_with_validation_200 polls :
  network (fetch_polls_request skip limit base_url)
  = Responded {| status_code := 200; response_body := JsonBody (JList polls) |} →
  fetch_polls_with_validation network py_repr skip limit base_url
  = (for_enumerate validate_poll 0 polls;; Ok polls).
Proof.
  intros Hnet. unfold fetch_polls_with_validation.
  by rewrite (fetch_polls_200 polls Hnet).
Qed.

(** C1. For every 200 response whose body is a list of well-formed poll
    objects (id an integer, question a string, created_at present,
    owner_id an integer, options a list of objects each carrying id, text
    and poll_id), [fetch_polls_with_validation] returns exactly that list:
    validation is transparent on valid input. *)
Theorem fetch_polls_with_validation_transparent polls :
  network (fetch_polls_request skip limit base_url)
  = Responded {| status_code := 200; response_body := JsonBody (JList polls) |} →
  forallb well_formed_poll polls = true →
  fetch_polls_with_validation network py_repr skip limit base_url = Ok polls.
Proof.
  intros Hnet Hpolls. rewrite (fetch_polls_with_validation_200 polls Hnet).
  by rewrite validate_polls_ok.
Qed.

(** C9. [created_at] is never type-checked: take well-formed polls and put
    any JSON values whatsoever (integers, lists, null, ...) in their
    [created_at] fields; validation of the resulting list succeeds and
    returns it unchanged, those values included. *)
Theorem created_at_not_type_checked polls stamps :
  forallb well_formed_poll polls = true →
  network (fetch_polls_request skip limit base_url)
  = Responded {| status_code := 200;
                 response_body :=
                   JsonBody (JList (zip_with with_created_at stamps polls)) |} →
  fetch_polls_with_validation network py_repr skip limit base_url
  = Ok (zip_with with_created_at stamps polls).
Proof.
  intros Hpolls Hnet. rewrite (fetch_polls_with_validation_200 _ Hnet).
  by rewrite validate_polls_ok by by apply well_formed_zip_created_at.
Qed.

(** A poll object with a poll-level violation stops the loop over the
    polls, wherever it stands. *)
Lemma offending_poll_never_validates polls i (d : gmap string json) :
  polls !! i = Some (JDict d) →
  forallb (has_field d) required_fields
    && forallb (well_typed d) poll_field_types = false →
  for_enumerate validate_poll 0 polls ≠ Ok ().
Proof.
  intros Hpoll [v Hv]%schema_fails_first_violation Hloop.
  apply (for_enumerate_Ok_inv _ _ _ _ _ Hloop) in Hpoll.
  by rewrite (validate_poll_first_violation _ _ _ Hv) in Hpoll.
Qed.

(** The polls before a position pass when they are well-formed. *)
Lemma well_formed_prefix_validates polls i :
  forallb well_formed_poll (take i polls) = true →
  ∀ k poll, k < i → polls !! k = Some poll → validate_poll (0 + k) poll = Ok ().
Proof.
  intros Hprefix k poll Hk Hpoll. apply validate_poll_ok.
  apply (forallb_lookup _ _ k _ Hprefix). by rewrite lookup_take_lt.
Qed.


(** C4, as the code has it.  Take a poll list holding, at index [i], a poll
    object whose [options] list holds, at index [j], an option object that
    misses one of id, text, poll_id.  Then [fetch_polls_with_validation]
    returns no result at all; and when nothing before that option offends
    (the polls before [i] are well-formed, poll [i] passes its own field
    and type checks, the options before [j] are well-formed), the error
    raised is the [ValueError] worded with the poll index [i], the option
    index [j] and the first missing field of the option. *)
Theorem option_violation_reported polls i (d : gmap string json)
    options j (o : gmap string json) :
  network (fetch_polls_request skip limit base_url)
  = Responded {| status_code := 200; response_body := JsonBody (JList polls) |} →
  polls !! i = Some (JDict d) →
  d !! "options" = Some (JList options) →
  options !! j = Some (JDict o) →
  (∃ field, field ∈ option_required_fields ∧ o !! field = None) →
  (∀ returned,
     fetch_polls_with_validation network py_repr skip limit base_url
     ≠ Ok returned)
  ∧ (forallb well_formed_poll (take i polls) = true →
     poll_fields_ok d = true →
     forallb well_formed_option (take j options) = true →
     ∃ field, first_violation option_required_fields [] o (Missing field)
        ∧ fetch_polls_with_validation network py_repr skip limit base_url
          = Raise (ValueError (option_missing i j field))).
Proof.
  intros Hnet Hpoll Hoptions Hoption Hmissing.
  rewrite (fetch_polls_with_validation_200 polls Hnet).
  destruct (missing_first_violation _ _ Hmissing) as [field Hfield].
  assert (validate_option i j (JDict o)
          = Raise (ValueError (option_missing i j field))) as Hraise.
  { inversion Hfield as [before f after Hsplit Hbefore Hnone|]; subst.
    unfold validate_option.
    by rewrite Hsplit, require_fields_first_missing. }
  split.
  - intros returned ([] & Hloop & _)%bind_Ok_inv.
    destruct (poll_fields_ok d) eqn:Hok.
    + apply (for_enumerate_Ok_inv _ _ _ _ _ Hloop) in Hpoll.
      rewrite (validate_poll_options _ _ _ Hok Hoptions) in Hpoll.
      apply (for_enumerate_Ok_inv _ _ _ _ _ Hpoll) in Hoption.
      cbn [Nat.add] in Hoption. by rewrite Hraise in Hoption.
    + by eapply offending_poll_never_validates, Hloop.
  - intros Hprefix Hok Hbefore. exists field. split; [done|].
    rewrite (for_enumerate_raise validate_poll polls 0 i (JDict d)
               (ValueError (option_missing i j field))); [done..| |].
    + by apply well_formed_prefix_validates.
    + rewrite (validate_poll_options _ _ _ Hok Hoptions).
      apply (for_enumerate_raise _ options 0 j (JDict o)); [done| |done].
      intros k option Hk Hlookup. apply validate_option_ok.
      apply (forallb_lookup _ _ k _ Hbefore). by rewrite lookup_take_lt.
Qed.

End FetchPolls.

(** ** The error branch shared by the three guarded functions *)

(** The [try]/[except] around the decoding of an error body always yields a
    message. *)
Lemma error_message_of_total response :
  ∃ error_message, error_message_of response = Ok error_message.
Proof.
  unfold error_message_of, try_except.
  destruct (_ ≫= _); eauto.
Qed.

(** A body that does not decode yields the status-code fallback. *)
Lemma error_message_of_undecodable status why :
  error_message_of {| status_code := status; response_body := NotJson why |}
  = Ok (JStr ("HTTP " +:+ pretty status)).
Proof. reflexivity. Qed.

(** So does a body that decodes to something other than an object: [.get]
    raises [AttributeError] inside the [try]. *)
Lemma error_message_of_not_object status v :
  (∀ d, v ≠ JDict d) →
  error_message_of {| status_code := status; response_body := JsonBody v |}
  = Ok (JStr ("HTTP " +:+ pretty status)).
Proof.
  intros Hv. destruct v as [| | | | | |d]; try reflexivity.
  by destruct (Hv d).
Qed.

Lemma prefix_refl (s : string) : String.prefix s s = true.
Proof.
  induction s as [|a s IH]; simpl; [done|].
  by destruct (Ascii.ascii_dec a a).
Qed.

Lemma contains_refl (s : string) : contains s s = true.
Proof. destruct s; cbn [contains]; by rewrite prefix_refl. Qed.

(** A text contains each of its suffixes. *)
Lemma contains_suffix (before needle : string) :
  contains needle (before +:+ needle) = true.
Proof.
  induction before as [|a before IH].
  - apply contains_refl.
  - change (String a before +:+ needle) with (String a (before +:+ needle)).
    cbn [contains]. rewrite IH. apply orb_true_r.
Qed.

(** ** The validator of [get_poll_results] *)



(** ** Properties of [vote_on_poll] and [get_poll_results] *)

Section PollClient.

Context (network : request → reply) (py_repr : json → string).

(** C7. Whatever the body of a 401 response to [vote_on_poll] (JSON or
    not, an object or not, with or without a detail), the call fails with
    the Unauthorized error. *)
Theorem vote_401_unauthorized poll_id option_id access_token base_url content :
  network (vote_request poll_id option_id access_token base_url)
  = Responded {| status_code := 401; response_body := content |} →
  vote_on_poll network py_repr poll_id option_id access_token base_url
  = Raise (ValueError "Unauthorized: Invalid or expired access token").
Proof.
  intros Hnet. unfold vote_on_poll, requests_send. rewrite Hnet.
  rewrite bind_Ok. cbn [status_code]. case_decide; [done|].
  by destruct (error_message_of_total (Response 401 content)) as [m ->].
Qed.

(** C8. A 404 response to [vote_on_poll] or to [get_poll_results],
    whatever its body, makes the call fail with its NotFound error. *)
Theorem not_found_404 base_url content :
  (∀ poll_id option_id access_token,
     network (vote_request poll_id option_id access_token base_url)
     = Responded {| status_code := 404; response_body := content |} →
     vote_on_poll network py_repr poll_id option_id access_token base_url
     = Raise (ValueError "Poll or option not found"))
  ∧ (∀ poll_id,
       network (results_request poll_id base_url)
       = Responded {| status_code := 404; response_body := content |} →
       get_poll_results network py_repr poll_id base_url
       = Raise (ValueError "Poll not found")).
Proof.
  split.
  - intros poll_id option_id access_token Hnet.
    unfold vote_on_poll, requests_send. rewrite Hnet.
    rewrite bind_Ok. cbn [status_code]. case_decide; [done|].
    by destruct (error_message_of_total (Response 404 content)) as [m ->].
  - intros poll_id Hnet.
    unfold get_poll_results, requests_send. rewrite Hnet.
    rewrite bind_Ok. cbn [status_code]. case_decide; [done|].
    by destruct (error_message_of_total (Response 404 content)) as [m ->].
Qed.

(** C10. The success path of [vote_on_poll] checks presence only: a 200
    response whose body is an object with the keys id, user_id, option_id
    and created_at is returned unchanged, whatever the values under those
    keys are. *)
Theorem vote_200_presence_only poll_id option_id access_token base_url
    (vote_data : gmap string json) :
  network (vote_request poll_id option_id access_token base_url)
  = Responded {| status_code := 200; response_body := JsonBody (JDict vote_data) |} →
  forallb (has_field vote_data) vote_required_fields = true →
  vote_on_poll network py_repr poll_id option_id access_token base_url
  = Ok (JDict vote_data).
Proof.
  intros Hnet Hfields. unfold vote_on_poll, requests_send. rewrite Hnet.
  rewrite bind_Ok. cbn [status_code]. case_decide; [|done].
  unfold response_json. cbn [response_body]. rewrite bind_Ok.
  by rewrite require_fields_present.
Qed.



End PollClient.

(** ** The error branches: fallback message and registration errors *)

Lemma append_assoc (s1 s2 s3 : string) :
  s1 +:+ s2 +:+ s3 = (s1 +:+ s2) +:+ s3.
Proof.
  induction s1 as [|a s1 IH]; [done|].
  change (String a (s1 +:+ s2 +:+ s3) = String a ((s1 +:+ s2) +:+ s3)).
  by rewrite IH.
Qed.

Lemma fallback_message_mentions_status what status :
  contains (pretty status) (fallback_message what status) = true.
Proof.
  unfold fallback_message. rewrite append_assoc. apply contains_suffix.
Qed.

Section ErrorBranches.

Context (network : request → reply) (py_repr : json → string).

(** C2, as the code has it.  For every status other than 200 and every
    error body that does not decode as JSON: [fetch_polls] fails with its
    fallback message; so does [vote_on_poll] for a status other than 401
    and 404, and [get_poll_results] for a status other than 404 (those
    statuses have their own fixed errors); the fallback message carries
    the status code, and the failure is a [ValueError], never a decoding
    error.  ([register_user] is not covered.) *)
Theorem undecodable_error_body_falls_back status why :
  status ≠ 200%Z →
  (∀ skip limit base_url,
     network (fetch_polls_request skip limit base_url)
     = Responded {| status_code := status; response_body := NotJson why |} →
     fetch_polls network py_repr skip limit base_url
     = Raise (ValueError (fallback_message "Failed to fetch polls" status)))
  ∧ (∀ poll_id option_id access_token base_url,
       status ≠ 401%Z → status ≠ 404%Z →
       network (vote_request poll_id option_id access_token base_url)
       = Responded {| status_code := status; response_body := NotJson why |} →
       vote_on_poll network py_repr poll_id option_id access_token base_url
       = Raise (ValueError (fallback_message "Failed to vote on poll" status)))
  ∧ (∀ poll_id base_url,
       status ≠ 404%Z →
       network (results_request poll_id base_url)
       = Responded {| status_code := status; response_body := NotJson why |} →
       get_poll_results network py_repr poll_id base_url
       = Raise (ValueError
                  (fallback_message "Failed to get poll results" status)))
  ∧ (∀ what, contains (pretty status) (fallback_message what status) = true).
Proof.
  intros Hstatus. split; [|split; [|split]].
  - intros skip limit base_url Hnet.
    unfold fetch_polls, requests_send. rewrite Hnet, bind_Ok.
    cbn [status_code]. case_decide; [done|].
    by rewrite error_message_of_undecodable.
  - intros poll_id option_id access_token base_url H401 H404 Hnet.
    unfold vote_on_poll, requests_send. rewrite Hnet, bind_Ok.
    cbn [status_code]. repeat (case_decide; [done|]).
    by rewrite error_message_of_undecodable.
  - intros poll_id base_url H404 Hnet.
    unfold get_poll_results, requests_send. rewrite Hnet, bind_Ok.
    cbn [status_code]. repeat (case_decide; [done|]).
    by rewrite error_message_of_undecodable.
  - intros what. apply fallback_message_mentions_status.
Qed.

(** X20. [register_user] decodes the error body outside any [try]: a body
    that is not JSON surfaces the decoder's own exception. *)
Lemma register_user_undecodable_error_body username password base_url
    status why :
  status ≠ 200%Z →
  network (register_request username password base_url)
  = Responded {| status_code := status; response_body := NotJson why |} →
  register_user network py_repr username password base_url
  = Raise (JSONDecodeError why).
Proof.
  intros Hstatus Hnet. unfold register_user, requests_send.
  rewrite Hnet, bind_Ok. cbn [status_code]. by case_decide.
Qed.

(** Object bodies with a text for detail.  For a non-200 response to
    [register_user] whose body is a JSON object: with status 400 and a detail text containing "Username already
    registered" the call fails with the duplicate-username error; with any
    other detail text, or any other status, it fails with the generic
    registration error carrying the detail text; without a detail field it
    fails with the generic error carrying "Unknown error". *)
Theorem register_user_error_mapping username password base_url status
    (error_data : gmap string json) :
  status ≠ 200%Z →
  network (register_request username password base_url)
  = Responded {| status_code := status;
                 response_body := JsonBody (JDict error_data) |} →
  (∀ detail,
     error_data !! "detail" = Some (JStr detail) →
     status = 400%Z →
     contains "Username already registered" detail = true →
     register_user network py_repr username password base_url
     = Raise (ValueError "Username already registered"))
  ∧ (∀ detail,
       error_data !! "detail" = Some (JStr detail) →
       ¬ (status = 400%Z
          ∧ contains "Username already registered" detail = true) →
       register_user network py_repr username password base_url
       = Raise (ValueError ("Registration failed: " +:+ detail)))
  ∧ (error_data !! "detail" = None →
     register_user network py_repr username password base_url
     = Raise (ValueError "Registration failed: Unknown error")).
Proof.
  intros Hstatus Hnet. unfold register_user, requests_send.
  rewrite Hnet, bind_Ok. cbn [status_code]. case_decide; [done|].
  unfold response_json. cbn [response_body]. rewrite bind_Ok.
  cbn [py_get]. split; [|split].
  - intros detail -> H400 Hdup. case_decide; [|done].
    cbn [default from_option id mbind result_bind py_in].
    by rewrite Hdup.
  - intros detail -> Hnot. case_decide.
    + cbn [default from_option id mbind result_bind py_in].
      destruct (contains _ detail) eqn:Hdup; [by destruct Hnot|done].
    + done.
  - intros ->. by case_decide.
Qed.

End ErrorBranches.

(** ** The scenarios, run *)

Example second_poll_lacks_question :
  fetch_polls_with_validation
    (answers 200 (JsonBody (JList polls_second_lacks_question)))
    no_repr 0 10 localhost
  = Raise (ValueError "Poll at index 1 is missing required field: question").
Proof. vm_compute. reflexivity. Qed.

Example second_poll_has_bad_option :
  fetch_polls_with_validation
    (answers 200 (JsonBody (JList polls_second_has_bad_option)))
    no_repr 0 10 localhost
  = Raise (ValueError "Poll 1, option 1 is missing required field: text").
Proof. vm_compute. reflexivity. Qed.

(** In Python a JSON [true] is an [int]: a poll whose id is a boolean passes
    the type check of [id]. *)
Example boolean_id_passes :
  validate_poll 0 (JDict (<["id" := JBool true]> poll_example_fields)) = Ok ().
Proof. vm_compute. reflexivity. Qed.

(** A [str] "contains" a field as a substring: this text passes for an
    option with all three fields. *)
Example text_passes_for_option :
  validate_option 0 0 (JStr "text poll_id") = Ok ().
Proof. vm_compute. reflexivity. Qed.

(** An error body that is JSON but no object makes [register_user] raise
    [AttributeError]; a detail that is a number makes it raise [TypeError]
    at status 400. *)
Example register_user_list_error_body :
  register_user (answers 500 (JsonBody (JList []))) no_repr
    "alice" "pw123" localhost
  = Raise AttributeError.
Proof. vm_compute. reflexivity. Qed.

Example register_user_numeric_detail :
  register_user (answers 400 (JsonBody (JDict {[ "detail" := JInt 3 ]}))) no_repr
    "alice" "pw123" localhost
  = Raise TypeError.
Proof. vm_compute. reflexivity. Qed.

Example register_user_empty_error_body :
  register_user (answers 500 empty_body) no_repr "alice" "pw123" localhost
  = Raise (JSONDecodeError "Expecting value: line 1 column 1 (char 0)").
Proof. vm_compute. reflexivity. Qed.

Lemma fetch_polls_with_validation_transparent_witness :
  forallb well_formed_poll [poll_example] = true
  ∧ fetch_polls_with_validation
      (answers 200 (JsonBody (JList [poll_example]))) no_repr 0 10 localhost
    = Ok [poll_example].
Proof.
  assert (forallb well_formed_poll [poll_example] = true) as Hpolls
    by (vm_compute; reflexivity).
  split; [exact Hpolls|].
  exact (fetch_polls_with_validation_transparent
           (answers 200 (JsonBody (JList [poll_example]))) no_repr
           0 10 localhost [poll_example] eq_refl Hpolls).
Defined.

Lemma created_at_not_type_checked_witness :
  forallb well_formed_poll [poll_example; poll_example] = true
  ∧ fetch_polls_with_validation
      (answers 200
         (JsonBody (JList (zip_with with_created_at
                             [JInt 5; JList [JNull]]
                             [poll_example; poll_example]))))
      no_repr 0 10 localhost
    = Ok (zip_with with_created_at [JInt 5; JList [JNull]]
            [poll_example; poll_example]).
Proof.
  assert (forallb well_formed_poll [poll_example; poll_example] = true)
    as Hpolls by (vm_compute; reflexivity).
  split; [exact Hpolls|].
  exact (created_at_not_type_checked
           (answers 200
              (JsonBody (JList (zip_with with_created_at
                                  [JInt 5; JList [JNull]]
                                  [poll_example; poll_example]))))
           no_repr 0 10 localhost
           [poll_example; poll_example] [JInt 5; JList [JNull]]
           Hpolls eq_refl).
Defined.


Lemma option_violation_reported_witness :
  (∃ field, field ∈ option_required_fields
          ∧ option_without_text !! field = None)
  ∧ forallb well_formed_poll (take 1 polls_second_has_bad_option) = true
  ∧ poll_fields_ok poll_with_bad_option = true
  ∧ forallb well_formed_option
      (take 1 [option_yes; JDict option_without_text]) = true
  ∧ (∀ returned,
       fetch_polls_with_validation
         (answers 200 (JsonBody (JList polls_second_has_bad_option)))
         no_repr 0 10 localhost
       ≠ Ok returned)
  ∧ ∃ field, first_violation option_required_fields [] option_without_text
               (Missing field)
       ∧ fetch_polls_with_validation
           (answers 200 (JsonBody (JList polls_second_has_bad_option)))
           no_repr 0 10 localhost
         = Raise (ValueError (option_missing 1 1 field)).
Proof.
  assert (∃ field, field ∈ option_required_fields
                 ∧ option_without_text !! field = None) as Hmissing.
  { exists "text". split; [|vm_compute; reflexivity].
    apply list_elem_of_In. simpl. tauto. }
  assert (forallb well_formed_poll (take 1 polls_second_has_bad_option) = true)
    as Hprefix by (vm_compute; reflexivity).
  assert (poll_fields_ok poll_with_bad_option = true) as Hok
    by (vm_compute; reflexivity).
  assert (forallb well_formed_option
            (take 1 [option_yes; JDict option_without_text]) = true)
    as Hbefore by (vm_compute; reflexivity).
  destruct (option_violation_reported
              (answers 200 (JsonBody (JList polls_second_has_bad_option)))
              no_repr 0 10 localhost polls_second_has_bad_option 1
              poll_with_bad_option [option_yes; JDict option_without_text] 1
              option_without_text eq_refl eq_refl eq_refl eq_refl Hmissing)
    as [Hnever Hfirst].
  split; [exact Hmissing|]. split; [exact Hprefix|]. split; [exact Hok|].
  split; [exact Hbefore|].
  split; [exact Hnever|exact (Hfirst Hprefix Hok Hbefore)].
Defined.

(** The decimal rendering of an index starts with a digit. *)
Lemma pretty_N_go_head (x : N) (s : string) :
  (∃ c rest, s = String c rest ∧ c ≠ "a"%char) →
  ∃ c rest, pretty_N_go x s = String c rest ∧ c ≠ "a"%char.
Proof.
  revert s. induction (N.lt_wf_0 x) as [x _ IH]. intros s Hs.
  destruct (decide (x = 0)%N) as [->|Hx].
  - by rewrite pretty_N_go_0.
  - rewrite pretty_N_go_step by lia. apply IH.
    + apply N.div_lt; lia.
    + eexists _, _. split; [done|].
      unfold pretty_N_char. by repeat case_match.
Qed.

Lemma pretty_nat_head (i : nat) :
  ∃ c rest, pretty i = String c rest ∧ c ≠ "a"%char.
Proof.
  unfold pretty, pretty_nat, pretty, pretty_N.
  case_decide as Hi.
  - by exists "0"%char, "".
  - rewrite pretty_N_go_step by lia. apply pretty_N_go_head.
    eexists _, _. split; [done|].
    unfold pretty_N_char. by repeat case_match.
Qed.

(** C4 as stated fails.  The only poll of this list holds an option object
    without its text, yet the error raised is the poll-level one about the
    poll's id: it names no option, and no option-level message, for any
    poll index, option index and field, is raised. *)
Lemma option_violation_masked_by_poll_violation :
  [JDict poll_bad_id_bad_option] !! 0 = Some (JDict poll_bad_id_bad_option)
  ∧ poll_bad_id_bad_option !! "options"
    = Some (JList [JDict option_without_text])
  ∧ [JDict option_without_text] !! 0 = Some (JDict option_without_text)
  ∧ "text" ∈ option_required_fields
  ∧ option_without_text !! "text" = None
  ∧ fetch_polls_with_validation
      (answers 200 (JsonBody (JList [JDict poll_bad_id_bad_option])))
      no_repr 0 10 localhost
    = Raise (ValueError "Poll at index 0: 'id' must be an integer")
  ∧ ∀ i j field,
      fetch_polls_with_validation
        (answers 200 (JsonBody (JList [JDict poll_bad_id_bad_option])))
        no_repr 0 10 localhost
      ≠ Raise (ValueError (option_missing i j field)).
Proof.
  assert (fetch_polls_with_validation
            (answers 200 (JsonBody (JList [JDict poll_bad_id_bad_option])))
            no_repr 0 10 localhost
          = Raise (ValueError "Poll at index 0: 'id' must be an integer"))
    as Hrun by (vm_compute; reflexivity).
  split; [reflexivity|]. split; [vm_compute; reflexivity|].
  split; [reflexivity|].
  split; [apply list_elem_of_In; simpl; tauto|].
  split; [vm_compute; reflexivity|]. split; [exact Hrun|].
  intros i j field. rewrite Hrun. unfold option_missing.
  destruct (pretty_nat_head i) as (c & rest & -> & Hc).
  intros [= Heq]. by destruct Hc.
Qed.

Lemma vote_401_unauthorized_witness :
  vote_on_poll (answers 401 (JsonBody (JList [JStr "not an object"]))) no_repr
    1 2 "tok" localhost
  = Raise (ValueError "Unauthorized: Invalid or expired access token").
Proof.
  exact (vote_401_unauthorized
           (answers 401 (JsonBody (JList [JStr "not an object"]))) no_repr
           1 2 "tok" localhost (JsonBody (JList [JStr "not an object"]))
           eq_refl).
Defined.

Lemma not_found_404_witness :
  vote_on_poll (answers 404 empty_body) no_repr 1 2 "tok" localhost
  = Raise (ValueError "Poll or option not found")
  ∧ get_poll_results (answers 404 empty_body) no_repr 1 localhost
    = Raise (ValueError "Poll not found").
Proof.
  destruct (not_found_404 (answers 404 empty_body) no_repr localhost empty_body)
    as [Hvote Hresults].
  split; [exact (Hvote 1%Z 2%Z "tok" eq_refl)|exact (Hresults 1%Z eq_refl)].
Defined.

Lemma vote_200_presence_only_witness :
  forallb (has_field vote_odd_types) vote_required_fields = true
  ∧ vote_on_poll (answers 200 (JsonBody (JDict vote_odd_types))) no_repr
      1 2 "tok" localhost
    = Ok (JDict vote_odd_types).
Proof.
  assert (forallb (has_field vote_odd_types) vote_required_fields = true)
    as Hfields by (vm_compute; reflexivity).
  split; [exact Hfields|].
  exact (vote_200_presence_only
           (answers 200 (JsonBody (JDict vote_odd_types))) no_repr
           1 2 "tok" localhost vote_odd_types eq_refl Hfields).
Defined.

(** The vote of the specification's scenario comes back unchanged. *)
Example vote_example_returned :
  vote_on_poll (answers 200 (JsonBody (JDict vote_example))) no_repr
    1 2 "tok" localhost
  = Ok (JDict vote_example).
Proof. vm_compute. reflexivity. Qed.

Lemma undecodable_error_body_falls_back_witness :
  500%Z ≠ 200%Z
  ∧ fetch_polls (answers 500 empty_body) no_repr 0 10 localhost
    = Raise (ValueError "Failed to fetch polls: HTTP 500")
  ∧ vote_on_poll (answers 500 empty_body) no_repr 1 2 "tok" localhost
    = Raise (ValueError "Failed to vote on poll: HTTP 500")
  ∧ get_poll_results (answers 500 empty_body) no_repr 1 localhost
    = Raise (ValueError "Failed to get poll results: HTTP 500")
  ∧ contains "500" "Failed to fetch polls: HTTP 500" = true.
Proof.
  assert (500%Z ≠ 200%Z) as Hstatus by discriminate.
  destruct (undecodable_error_body_falls_back
              (answers 500 empty_body) no_repr 500
              "Expecting value: line 1 column 1 (char 0)" Hstatus)
    as (Hfetch & Hvote & Hresults & Hmentions).
  split; [exact Hstatus|].
  split; [exact (Hfetch 0%Z 10%Z localhost eq_refl)|].
  split.
  { apply (Hvote 1%Z 2%Z "tok" localhost); [discriminate..|reflexivity]. }
  split.
  { apply (Hresults 1%Z localhost); [discriminate|reflexivity]. }
  exact (Hmentions "Failed to fetch polls").
Defined.

(** C2 as stated fails.  A 401 response with an empty body makes
    [vote_on_poll] fail with its fixed Unauthorized message, which does not
    carry the status code. *)
Lemma unauthorized_message_lacks_status_code :
  vote_on_poll (answers 401 empty_body) no_repr 1 2 "tok" localhost
  = Raise (ValueError "Unauthorized: Invalid or expired access token")
  ∧ ¬ ∃ msg,
        vote_on_poll (answers 401 empty_body) no_repr 1 2 "tok" localhost
        = Raise (ValueError msg)
        ∧ contains (pretty 401%Z) msg = true.
Proof.
  assert (vote_on_poll (answers 401 empty_body) no_repr 1 2 "tok" localhost
          = Raise (ValueError "Unauthorized: Invalid or expired access token"))
    as Hrun by (vm_compute; reflexivity).
  split; [exact Hrun|].
  intros (msg & Hmsg & Hcontains). rewrite Hrun in Hmsg.
  injection Hmsg as <-. vm_compute in Hcontains. discriminate.
Qed.

(** ** Beyond the claims: what the exceptions can be *)

(** The presence loop raises a [TypeError] (the object is no container) or
    the [ValueError] of one of its fields, nothing else. *)
Lemma require_fields_raise_inv missing fields obj e :
  require_fields missing fields obj = Raise e →
  e = TypeError ∨ ∃ field, field ∈ fields ∧ e = ValueError (missing field).
Proof.
  induction fields as [|field fields IH]; cbn [require_fields]; [done|].
  destruct (py_in field obj) as [[]|e'] eqn:Hin; cbn [mbind result_bind].
  - intros [->|(f & Hf & ->)]%IH; [by left|right].
    exists f. split; [set_solver|done].
  - intros [= <-]. right. exists field. split; [set_solver|done].
  - intros [= <-]. left. destruct obj; by simplify_eq/=.
Qed.

(** A loop that raised did so at some position. *)
Lemma for_enumerate_raise_inv {A} (body : nat → A → result ())
    (xs : list A) start e :
  for_enumerate body start xs = Raise e →
  ∃ k x, xs !! k = Some x ∧ body (start + k) x = Raise e.
Proof.
  revert start. induction xs as [|y xs IH]; intros start; [done|].
  cbn [for_enumerate]. destruct (body start y) as [[]|e'] eqn:Hy;
    cbn [mbind result_bind].
  - intros (k & x & Hx & Hraise)%IH. exists (S k), x.
    split; [done|]. by rewrite Nat.add_succ_r.
  - intros [= <-]. exists 0, y. split; [done|]. by rewrite Nat.add_0_r.
Qed.

(** On a value that is no object, the loop body of the polls cannot pass:
    even when [in] finds every field, [poll["id"]] raises. *)
Lemma validate_poll_not_object i poll :
  (∀ d, poll ≠ JDict d) → validate_poll i poll ≠ Ok ().
Proof.
  intros Hpoll. unfold validate_poll.
  destruct (require_fields _ _ poll) as [[]|e]; [|done].
  destruct poll as [| | | | | |d]; try done. by destruct (Hpoll d).
Qed.

Lemma validate_result_not_object i entry :
  (∀ e, entry ≠ JDict e) → validate_result i entry ≠ Ok ().
Proof.
  intros Hentry. unfold validate_result.
  destruct (require_fields _ _ entry) as [[]|e]; [|done].
  destruct entry as [| | | | | |e]; try done. by destruct (Hentry e).
Qed.

(** A poll object the loop body accepts has the five fields, the four
    types, and options that all pass the presence loop. *)
Lemma validate_poll_Ok_inv i (d : gmap string json) :
  validate_poll i (JDict d) = Ok () →
  ∃ options,
    poll_fields_ok d = true
    ∧ d !! "options" = Some (JList options)
    ∧ for_enumerate (validate_option i) 0 options = Ok ().
Proof.
  unfold validate_poll.
  destruct (require_fields _ _ _) as [[]|e] eqn:Hreq; [|done].
  apply require_fields_Ok_inv in Hreq. run_binds.
  destruct (d !! "id") as [id|] eqn:Hid; run_binds; [|done].
  destruct (isinstance_int id) eqn:Tid; run_binds; [|done].
  destruct (d !! "question") as [question|] eqn:Hquestion; run_binds; [|done].
  destruct (isinstance_str question) eqn:Tquestion; run_binds; [|done].
  destruct (d !! "owner_id") as [owner_id|] eqn:Howner; run_binds; [|done].
  destruct (isinstance_int owner_id) eqn:Towner; run_binds; [|done].
  destruct (d !! "options") as [[| | | | |options|]|] eqn:Hoptions;
    run_binds; try done.
  intros Hloop. exists options. split; [|done].
  unfold poll_fields_ok, poll_field_types, well_typed.
  cbn [forallb fst snd]. rewrite Hreq, Hid, Hquestion, Howner, Hoptions.
  cbn [from_option]. by rewrite Tid, Tquestion, Towner.
Qed.

(** An entry object the loop body accepts is a well-formed entry. *)
Lemma validate_result_Ok_inv i (e : gmap string json) :
  validate_result i (JDict e) = Ok () → well_formed_result (JDict e) = true.
Proof.
  unfold validate_result.
  destruct (require_fields _ _ _) as [[]|err] eqn:Hreq; [|done].
  apply require_fields_Ok_inv in Hreq. run_binds.
  destruct (e !! "option_id") as [option_id|] eqn:Hoption; run_binds; [|done].
  destruct (isinstance_int option_id) eqn:Toption; run_binds; [|done].
  destruct (e !! "text") as [text|] eqn:Htext; run_binds; [|done].
  destruct (isinstance_str text) eqn:Ttext; run_binds; [|done].
  destruct (e !! "vote_count") as [vote_count|] eqn:Hcount; run_binds; [|done].
  destruct (isinstance_int vote_count) eqn:Tcount; run_binds; [|done].
  intros _. unfold well_formed_result, result_field_types, well_typed.
  cbn [forallb fst snd]. rewrite Hreq, Hoption, Htext, Hcount.
  cbn [from_option]. by rewrite Toption, Ttext, Tcount.
Qed.

(** A subscript by a field name raises no [ValueError]. *)
Lemma py_getitem_no_ValueError container key msg :
  py_getitem container key ≠ Raise (ValueError msg).
Proof. destruct container; cbn [py_getitem]; try done. by case_match. Qed.

(** Every [ValueError] of the loop body of the results starts with
    "Invalid response: ". *)
Lemma validate_result_ValueError i entry msg :
  validate_result i entry = Raise (ValueError msg) →
  ∃ rest, msg = "Invalid response: " +:+ rest.
Proof.
  unfold validate_result.
  destruct (require_fields _ _ _) as [[]|err] eqn:Hreq;
    cbn [mbind result_bind].
  2:{ intros [= ->].
      apply require_fields_raise_inv in Hreq as [?|(f & _ & [= ->])]; [done|].
      by eexists. }
  destruct (py_getitem entry "option_id") as [v1|] eqn:H1;
    cbn [mbind result_bind];
    [|by intros [= ->]; destruct (py_getitem_no_ValueError _ _ _ H1)].
  destruct (isinstance_int v1); cbn [mbind result_bind];
    [|by intros [= <-]; eexists].
  destruct (py_getitem entry "text") as [v2|] eqn:H2;
    cbn [mbind result_bind];
    [|by intros [= ->]; destruct (py_getitem_no_ValueError _ _ _ H2)].
  destruct (isinstance_str v2); cbn [mbind result_bind];
    [|by intros [= <-]; eexists].
  destruct (py_getitem entry "vote_count") as [v3|] eqn:H3;
    cbn [mbind result_bind];
    [|by intros [= ->]; destruct (py_getitem_no_ValueError _ _ _ H3)].
  destruct (isinstance_int v3); [done|].
  intros [= <-]. by eexists.
Qed.

(** ** Beyond the claims: [fetch_polls] and [fetch_polls_with_validation] *)

Lemma error_message_of_object status (d : gmap string json) :
  error_message_of
    {| status_code := status; response_body := JsonBody (JDict d) |}
  = Ok (default (JStr "Unknown error") (d !! "detail")).
Proof. reflexivity. Qed.

Lemma py_str_detail py_repr (d : gmap string json) :
  py_str py_repr (default (JStr "Unknown error") (d !! "detail"))
  = detail_text py_repr d.
Proof. unfold detail_text. by destruct (d !! "detail"). Qed.

Section FetchPollsMore.

Context (network : request → reply) (py_repr : json → string).
Context (skip limit : Z) (base_url : string).

(** X1. [fetch_polls] returns a list exactly when the server answered 200
    with a JSON list, and then it returns that list: nothing else succeeds
    and nothing is filtered or reordered. *)
Theorem fetch_polls_Ok_iff polls :
  fetch_polls network py_repr skip limit base_url = Ok polls
  ↔ network (fetch_polls_request skip limit base_url)
    = Responded {| status_code := 200;
                   response_body := JsonBody (JList polls) |}.
Proof.
  unfold fetch_polls, requests_send.
  destruct (network _) as [[status content]|why];
    cbn [mbind result_bind status_code try_except_RequestException].
  - case_decide as Hstatus.
    + subst status. unfold response_json. cbn [response_body].
      destruct content as [v|why]; cbn [mbind result_bind].
      * destruct v; cbn; split; intros; by simplify_eq.
      * cbn. split; intros; by simplify_eq.
    + destruct (error_message_of_total (Response status content)) as [m ->].
      cbn. split; [done|]. intros [= ? ?]. done.
  - cbn. split; done.
Qed.

(** X2. A 200 response whose JSON body is anything but a list makes
    [fetch_polls] raise the [ValueError] "Expected a list of polls in the
    response". *)
Theorem fetch_polls_not_a_list v :
  network (fetch_polls_request skip limit base_url)
  = Responded {| status_code := 200; response_body := JsonBody v |} →
  (∀ polls, v ≠ JList polls) →
  fetch_polls network py_repr skip limit base_url
  = Raise (ValueError "Expected a list of polls in the response").
Proof.
  intros Hnet Hv. unfold fetch_polls, requests_send. rewrite Hnet.
  cbn [mbind result_bind status_code]. case_decide; [|done].
  destruct v as [| | | | |polls|]; try reflexivity. by destruct (Hv polls).
Qed.

(** X7. Validation never alters what [fetch_polls] produced: the validating
    call either gives exactly the outcome of [fetch_polls] (the same list,
    or the same exception), or raises on a list [fetch_polls] returned. *)
Theorem validation_never_alters :
  fetch_polls_with_validation network py_repr skip limit base_url
  = fetch_polls network py_repr skip limit base_url
  ∨ ∃ polls e,
      fetch_polls network py_repr skip limit base_url = Ok polls
      ∧ fetch_polls_with_validation network py_repr skip limit base_url
        = Raise e.
Proof.
  unfold fetch_polls_with_validation.
  destruct (fetch_polls _ _ _ _ _) as [polls|e]; [|by left].
  cbn [mbind result_bind].
  destruct (for_enumerate validate_poll 0 polls) as [[]|e]; [by left|].
  right. by exists polls, e.
Qed.

(** X8. What the validating call returns is sound: the list is the one
    [fetch_polls] returned, every element of it is an object that has the
    five required fields with an integer id, a string question, an integer
    owner_id and a list of options, and every option that is an object has
    id, text and poll_id. *)
Theorem validated_polls_sound polls :
  fetch_polls_with_validation network py_repr skip limit base_url = Ok polls →
  fetch_polls network py_repr skip limit base_url = Ok polls
  ∧ ∀ i poll, polls !! i = Some poll →
      ∃ (d : gmap string json) options,
        poll = JDict d
        ∧ poll_fields_ok d = true
        ∧ d !! "options" = Some (JList options)
        ∧ ∀ j (o : gmap string json),
            options !! j = Some (JDict o) →
            well_formed_option (JDict o) = true.
Proof.
  unfold fetch_polls_with_validation.
  destruct (fetch_polls _ _ _ _ _) as [fetched|e]; [|done].
  rewrite bind_Ok.
  intros ([] & Hloop & [= ->])%bind_Ok_inv. split; [done|].
  intros i poll Hpoll.
  apply (for_enumerate_Ok_inv _ _ _ _ _ Hloop) in Hpoll as Hvalid.
  destruct poll as [| | | | | |d];
    try (by exfalso; eapply validate_poll_not_object; [|exact Hvalid]).
  apply validate_poll_Ok_inv in Hvalid as (options & Hok & Hoptions & Hopts).
  exists d, options. repeat (split; [done|]).
  intros j o Ho. apply (for_enumerate_Ok_inv _ _ _ _ _ Hopts) in Ho.
  by apply require_fields_Ok_inv in Ho.
Qed.

(** X9. A poll that is no container ([null], a boolean, a number) standing
    after well-formed polls makes the validating call raise [TypeError]: the
    presence test itself fails, and no [ValueError] naming an index is
    produced. *)
Theorem scalar_poll_raises_TypeError polls i poll :
  network (fetch_polls_request skip limit base_url)
  = Responded {| status_code := 200;
                 response_body := JsonBody (JList polls) |} →
  polls !! i = Some poll →
  is_scalar poll = true →
  forallb well_formed_poll (take i polls) = true →
  fetch_polls_with_validation network py_repr skip limit base_url
  = Raise TypeError.
Proof.
  intros Hnet Hpoll Hscalar Hprefix.
  unfold fetch_polls_with_validation.
  rewrite (proj2 (fetch_polls_Ok_iff polls) Hnet). cbn [mbind result_bind].
  rewrite (for_enumerate_raise validate_poll polls 0 i poll TypeError);
    [done..| |].
  - intros k p Hk Hp. apply validate_poll_ok.
    apply (forallb_lookup _ _ k _ Hprefix). by rewrite lookup_take_lt.
  - by destruct poll.
Qed.

End FetchPollsMore.

(** ** Beyond the claims: the error branches of the guarded functions *)

Section ErrorBranchesMore.

Context (network : request → reply) (py_repr : json → string).

(** X3. Whatever the body of a non-200 response, [fetch_polls],
    [vote_on_poll] and [get_poll_results] each raise a [ValueError]: an HTTP
    error never comes back as a result, nor as an exception of another
    class. *)
Theorem http_error_raises_ValueError status content :
  status ≠ 200%Z →
  (∀ skip limit base_url,
     network (fetch_polls_request skip limit base_url)
     = Responded {| status_code := status; response_body := content |} →
     ∃ msg, fetch_polls network py_repr skip limit base_url
            = Raise (ValueError msg))
  ∧ (∀ poll_id option_id access_token base_url,
       network (vote_request poll_id option_id access_token base_url)
       = Responded {| status_code := status; response_body := content |} →
       ∃ msg, vote_on_poll network py_repr
                poll_id option_id access_token base_url
              = Raise (ValueError msg))
  ∧ (∀ poll_id base_url,
       network (results_request poll_id base_url)
       = Responded {| status_code := status; response_body := content |} →
       ∃ msg, get_poll_results network py_repr poll_id base_url
              = Raise (ValueError msg)).
Proof.
  intros Hstatus.
  destruct (error_message_of_total (Response status content)) as [m Hm].
  split; [|split].
  - intros skip limit base_url Hnet. unfold fetch_polls, requests_send.
    rewrite Hnet, bind_Ok. cbn [status_code]. case_decide; [done|].
    rewrite Hm. by eexists.
  - intros poll_id option_id access_token base_url Hnet.
    unfold vote_on_poll, requests_send.
    rewrite Hnet, bind_Ok. cbn [status_code]. case_decide; [done|].
    rewrite Hm. cbn [mbind result_bind]. repeat case_decide; by eexists.
  - intros poll_id base_url Hnet. unfold get_poll_results, requests_send.
    rewrite Hnet, bind_Ok. cbn [status_code]. case_decide; [done|].
    rewrite Hm. cbn [mbind result_bind]. repeat case_decide; by eexists.
Qed.

(** X4. When the body of a non-200 response is a JSON object, the generic
    failure of each guarded function carries the server's detail: the
    [str()] of the [detail] field, or "Unknown error" without one.  (The
    statuses with a fixed message, 401 and 404 for a vote and 404 for
    results, are set apart.) *)
Theorem error_detail_reported status (d : gmap string json) :
  status ≠ 200%Z →
  (∀ skip limit base_url,
     network (fetch_polls_request skip limit base_url)
     = Responded {| status_code := status;
                    response_body := JsonBody (JDict d) |} →
     fetch_polls network py_repr skip limit base_url
     = Raise (ValueError ("Failed to fetch polls: " +:+ detail_text py_repr d)))
  ∧ (∀ poll_id option_id access_token base_url,
       status ≠ 401%Z → status ≠ 404%Z →
       network (vote_request poll_id option_id access_token base_url)
       = Responded {| status_code := status;
                      response_body := JsonBody (JDict d) |} →
       vote_on_poll network py_repr poll_id option_id access_token base_url
       = Raise (ValueError
                  ("Failed to vote on poll: " +:+ detail_text py_repr d)))
  ∧ (∀ poll_id base_url,
       status ≠ 404%Z →
       network (results_request poll_id base_url)
       = Responded {| status_code := status;
                      response_body := JsonBody (JDict d) |} →
       get_poll_results network py_repr poll_id base_url
       = Raise (ValueError
                  ("Failed to get poll results: " +:+ detail_text py_repr d))).
Proof.
  intros Hstatus. split; [|split].
  - intros skip limit base_url Hnet. unfold fetch_polls, requests_send.
    rewrite Hnet, bind_Ok. cbn [status_code]. case_decide; [done|].
    rewrite error_message_of_object. cbn [mbind result_bind].
    by rewrite py_str_detail.
  - intros poll_id option_id access_token base_url H401 H404 Hnet.
    unfold vote_on_poll, requests_send.
    rewrite Hnet, bind_Ok. cbn [status_code]. repeat (case_decide; [done|]).
    rewrite error_message_of_object. cbn [mbind result_bind].
    by rewrite py_str_detail.
  - intros poll_id base_url H404 Hnet. unfold get_poll_results, requests_send.
    rewrite Hnet, bind_Ok. cbn [status_code]. repeat (case_decide; [done|]).
    rewrite error_message_of_object. cbn [mbind result_bind].
    by rewrite py_str_detail.
Qed.

(** X5. An error body that is JSON but no object (a list, a string, a
    number, [null]) is treated like an undecodable one: [.get] fails inside
    the [try] and the generic failure carries the status-code fallback. *)
Theorem non_object_error_body_falls_back status v :
  status ≠ 200%Z →
  (∀ d, v ≠ JDict d) →
  (∀ skip limit base_url,
     network (fetch_polls_request skip limit base_url)
     = Responded {| status_code := status; response_body := JsonBody v |} →
     fetch_polls network py_repr skip limit base_url
     = Raise (ValueError (fallback_message "Failed to fetch polls" status)))
  ∧ (∀ poll_id option_id access_token base_url,
       status ≠ 401%Z → status ≠ 404%Z →
       network (vote_request poll_id option_id access_token base_url)
       = Responded {| status_code := status; response_body := JsonBody v |} →
       vote_on_poll network py_repr poll_id option_id access_token base_url
       = Raise (ValueError (fallback_message "Failed to vote on poll" status)))
  ∧ (∀ poll_id base_url,
       status ≠ 404%Z →
       network (results_request poll_id base_url)
       = Responded {| status_code := status; response_body := JsonBody v |} →
       get_poll_results network py_repr poll_id base_url
       = Raise (ValueError
                  (fallback_message "Failed to get poll results" status))).
Proof.
  intros Hstatus Hv. split; [|split].
  - intros skip limit base_url Hnet. unfold fetch_polls, requests_send.
    rewrite Hnet, bind_Ok. cbn [status_code]. case_decide; [done|].
    by rewrite error_message_of_not_object.
  - intros poll_id option_id access_token base_url H401 H404 Hnet.
    unfold vote_on_poll, requests_send.
    rewrite Hnet, bind_Ok. cbn [status_code]. repeat (case_decide; [done|]).
    by rewrite error_message_of_not_object.
  - intros poll_id base_url H404 Hnet. unfold get_poll_results, requests_send.
    rewrite Hnet, bind_Ok. cbn [status_code]. repeat (case_decide; [done|]).
    by rewrite error_message_of_not_object.
Qed.

(** X6. A transport failure reaches the caller as a [RequestException]:
    the three guarded functions re-raise it with "Request failed: " before
    its message, [register_user], which has no [try], lets it through as it
    is. *)
Theorem transport_failure_reported why :
  (∀ skip limit base_url,
     network (fetch_polls_request skip limit base_url) = TransportFailure why →
     fetch_polls network py_repr skip limit base_url
     = Raise (RequestException ("Request failed: " +:+ why)))
  ∧ (∀ poll_id option_id access_token base_url,
       network (vote_request poll_id option_id access_token base_url)
       = TransportFailure why →
       vote_on_poll network py_repr poll_id option_id access_token base_url
       = Raise (RequestException ("Request failed: " +:+ why)))
  ∧ (∀ poll_id base_url,
       network (results_request poll_id base_url) = TransportFailure why →
       get_poll_results network py_repr poll_id base_url
       = Raise (RequestException ("Request failed: " +:+ why)))
  ∧ (∀ username password base_url,
       network (register_request username password base_url)
       = TransportFailure why →
       register_user network py_repr username password base_url
       = Raise (RequestException why)).
Proof.
  split; [|split; [|split]].
  - intros skip limit base_url Hnet. unfold fetch_polls, requests_send.
    by rewrite Hnet.
  - intros poll_id option_id access_token base_url Hnet.
    unfold vote_on_poll, requests_send. by rewrite Hnet.
  - intros poll_id base_url Hnet. unfold get_poll_results, requests_send.
    by rewrite Hnet.
  - intros username password base_url Hnet. unfold register_user, requests_send.
    by rewrite Hnet.
Qed.

End ErrorBranchesMore.

(** ** Beyond the claims: [vote_on_poll] and [get_poll_results] *)

Section PollClientMore.

Context (network : request → reply) (py_repr : json → string).

(** X10. Whatever [vote_on_poll] returns is the body of a 200 response,
    unchanged; it is no scalar, and when it is an object it has the four
    fields id, user_id, option_id, created_at. *)
Theorem vote_Ok_inv poll_id option_id access_token base_url v :
  vote_on_poll network py_repr poll_id option_id access_token base_url = Ok v →
  network (vote_request poll_id option_id access_token base_url)
  = Responded {| status_code := 200; response_body := JsonBody v |}
  ∧ is_scalar v = false
  ∧ ∀ d, v = JDict d → forallb (has_field d) vote_required_fields = true.
Proof.
  unfold vote_on_poll, requests_send.
  destruct (network _) as [[status content]|why];
    cbn [mbind result_bind status_code]; [|done].
  case_decide as Hstatus.
  - subst status. unfold response_json. cbn [response_body].
    destruct content as [body|why]; cbn [mbind result_bind]; [|done].
    destruct (require_fields _ _ body) as [[]|e] eqn:Hreq;
      cbn [mbind result_bind try_except_RequestException];
      [|by destruct (is_RequestException e)].
    intros [= ->]. split; [done|]. split.
    + by destruct v.
    + intros d ->. by apply require_fields_Ok_inv in Hreq.
  - destruct (error_message_of_total (Response status content)) as [m ->].
    cbn [mbind result_bind]. by repeat case_decide.
Qed.

(** X11. A 200 response to [vote_on_poll] whose object lacks one of the
    four fields raises the [ValueError] that names the first missing one, in
    the order id, user_id, option_id, created_at. *)
Theorem vote_missing_field poll_id option_id access_token base_url
    (vote_data : gmap string json) field :
  network (vote_request poll_id option_id access_token base_url)
  = Responded {| status_code := 200;
                 response_body := JsonBody (JDict vote_data) |} →
  first_violation vote_required_fields [] vote_data (Missing field) →
  vote_on_poll network py_repr poll_id option_id access_token base_url
  = Raise (ValueError (response_missing field)).
Proof.
  intros Hnet Hfield. unfold vote_on_poll, requests_send.
  rewrite Hnet, bind_Ok. cbn [status_code]. case_decide; [|done].
  unfold response_json. cbn [response_body]. rewrite bind_Ok.
  inversion Hfield as [before f after Hsplit Hbefore Hnone|]; subst.
  by rewrite Hsplit, require_fields_first_missing.
Qed.

(** X12. The two fixed errors of [vote_on_poll] are raised on their status
    only: the Unauthorized message means the server answered 401, the
    "Poll or option not found" message means it answered 404. *)
Theorem vote_fixed_errors_only_on_their_status
    poll_id option_id access_token base_url :
  (vote_on_poll network py_repr poll_id option_id access_token base_url
   = Raise (ValueError "Unauthorized: Invalid or expired access token") →
   ∃ content,
     network (vote_request poll_id option_id access_token base_url)
     = Responded {| status_code := 401; response_body := content |})
  ∧ (vote_on_poll network py_repr poll_id option_id access_token base_url
     = Raise (ValueError "Poll or option not found") →
     ∃ content,
       network (vote_request poll_id option_id access_token base_url)
       = Responded {| status_code := 404; response_body := content |}).
Proof.
  unfold vote_on_poll, requests_send.
  destruct (network _) as [[status content]|why];
    cbn [mbind result_bind status_code]; [|done].
  case_decide as Hstatus.
  - subst status. unfold response_json. cbn [response_body].
    destruct content as [body|why]; cbn [mbind result_bind]; [|done].
    destruct (require_fields _ _ body) as [[]|e] eqn:Hreq;
      cbn [mbind result_bind try_except_RequestException]; [done|].
    apply require_fields_raise_inv in Hreq as [->|(f & _ & ->)];
      cbn [is_RequestException]; [done|].
    unfold response_missing. split; by intros [= ?].
  - destruct (error_message_of_total (Response status content)) as [m ->].
    cbn [mbind result_bind]. repeat case_decide; subst;
      cbn [try_except_RequestException]; split; intros Heq;
      first [by injection Heq | by eexists].
Qed.

(** X13. Whatever [get_poll_results] returns is the body of a 200
    response, unchanged, and it is fully valid: an object with poll_id,
    question and results, whose results are a list of objects each with an
    integer option_id, a string text and an integer vote_count. *)
Theorem results_Ok_inv poll_id base_url v :
  get_poll_results network py_repr poll_id base_url = Ok v →
  ∃ (data : gmap string json) entries,
    v = JDict data
    ∧ network (results_request poll_id base_url)
      = Responded {| status_code := 200;
                     response_body := JsonBody (JDict data) |}
    ∧ forallb (has_field data) results_required_fields = true
    ∧ data !! "results" = Some (JList entries)
    ∧ forallb well_formed_result entries = true.
Proof.
  unfold get_poll_results, requests_send.
  destruct (network _) as [[status content]|why];
    cbn [mbind result_bind status_code]; [|done].
  case_decide as Hstatus.
  2:{ destruct (error_message_of_total (Response status content)) as [m ->].
      cbn [mbind result_bind]. by case_decide. }
  subst status. unfold response_json. cbn [response_body].
  destruct content as [body|why]; cbn [mbind result_bind]; [|done].
  destruct (require_fields _ _ body) as [[]|e] eqn:Hreq;
    cbn [mbind result_bind try_except_RequestException];
    [|by destruct (is_RequestException e)].
  destruct body as [| | | | | |data]; try done.
  apply require_fields_Ok_inv in Hreq. cbn [py_getitem].
  destruct (data !! "results") as [[| | | | |entries|]|] eqn:Hresults;
    cbn [mbind result_bind]; try done.
  destruct (for_enumerate validate_result 0 entries) as [[]|e] eqn:Hloop;
    cbn [mbind result_bind try_except_RequestException];
    [|by destruct (is_RequestException e)].
  intros [= <-]. exists data, entries. repeat (split; [done|]).
  apply forallb_forall. intros entry [k Hk]%list_elem_of_In%list_elem_of_lookup.
  apply (for_enumerate_Ok_inv _ _ _ _ _ Hloop) in Hk as Hvalid.
  destruct entry as [| | | | | |e];
    try (by exfalso; eapply validate_result_not_object; [|exact Hvalid]).
  by apply validate_result_Ok_inv in Hvalid.
Qed.

(** X14. The "Poll not found" error of [get_poll_results] is raised on a
    404 only: no validation failure and no other status produces it. *)
Theorem results_not_found_only_on_404 poll_id base_url :
  get_poll_results network py_repr poll_id base_url
  = Raise (ValueError "Poll not found") →
  ∃ content,
    network (results_request poll_id base_url)
    = Responded {| status_code := 404; response_body := content |}.
Proof.
  unfold get_poll_results, requests_send.
  destruct (network _) as [[status content]|why];
    cbn [mbind result_bind status_code]; [|done].
  case_decide as Hstatus.
  2:{ destruct (error_message_of_total (Response status content)) as [m ->].
      cbn [mbind result_bind]. case_decide; subst;
        cbn [try_except_RequestException]; [by eexists|]. by intros [= ?]. }
  subst status. unfold response_json. cbn [response_body].
  destruct content as [body|why]; cbn [mbind result_bind]; [|done].
  destruct (require_fields _ _ body) as [[]|e] eqn:Hreq;
    cbn [mbind result_bind try_except_RequestException].
  2:{ apply require_fields_raise_inv in Hreq as [->|(f & _ & ->)];
        cbn [is_RequestException]; [done|].
      unfold response_missing. by intros [= ?]. }
  destruct (py_getitem body "results") as [results|e] eqn:Hget;
    cbn [mbind result_bind try_except_RequestException].
  2:{ destruct (is_RequestException e); [done|]. intros [= ->].
      by destruct (py_getitem_no_ValueError _ _ _ Hget). }
  destruct results as [| | | | |entries|]; try done.
  destruct (for_enumerate validate_result 0 entries) as [[]|e] eqn:Hloop;
    cbn [mbind result_bind try_except_RequestException]; [done|].
  destruct (is_RequestException e); [done|]. intros [= ->].
  apply for_enumerate_raise_inv in Hloop as (k & entry & _ & Hraise).
  by apply validate_result_ValueError in Hraise as [rest [= ?]].
Qed.

End PollClientMore.

(** ** Beyond the claims: [register_user] *)

Lemma prefix_append (needle rest : string) :
  String.prefix needle (needle +:+ rest) = true.
Proof.
  induction needle as [|a needle IH]; [by destruct rest|].
  change (String a needle +:+ rest) with (String a (needle +:+ rest)).
  cbn [String.prefix]. by destruct (Ascii.ascii_dec a a).
Qed.

(** A text contains what stands anywhere inside it. *)
Lemma contains_infix (before needle after : string) :
  contains needle (before +:+ needle +:+ after) = true.
Proof.
  induction before as [|a before IH].
  - change ("" +:+ needle +:+ after) with (needle +:+ after).
    destruct (needle +:+ after) eqn:Heq; cbn [contains];
      by rewrite <-Heq, prefix_append.
  - change (String a before +:+ needle +:+ after)
      with (String a (before +:+ needle +:+ after)).
    cbn [contains]. rewrite IH. apply orb_true_r.
Qed.

Section RegisterUserMore.

Context (network : request → reply) (py_repr : json → string).
Context (username password base_url : string).

(** X15. [register_user] returns exactly when the server answered 200 with
    a decodable body, and it returns that body as it is, whatever it holds:
    the success payload is not validated. *)
Theorem register_user_Ok_iff v :
  register_user network py_repr username password base_url = Ok v
  ↔ network (register_request username password base_url)
    = Responded {| status_code := 200; response_body := JsonBody v |}.
Proof.
  unfold register_user, requests_send.
  destruct (network _) as [[status content]|why];
    cbn [mbind result_bind status_code]; [|done].
  unfold response_json. cbn [response_body]. case_decide as Hstatus.
  - subst status. destruct content as [body|why]; split; intros; by simplify_eq.
  - split; [|by intros [= ? ?]].
    destruct content as [error_data|why]; cbn [mbind result_bind]; [|done].
    destruct (if decide (status = 400%Z) then _ else _) as [[]|e];
      cbn [mbind result_bind]; try done.
    by destruct (py_get error_data "detail" (JStr "Unknown error")).
Qed.

(** X16. The duplicate-username error is raised on a 400 only: on any other
    status no error body, whatever its detail, produces it. *)
Theorem register_duplicate_only_on_400 :
  register_user network py_repr username password base_url
  = Raise (ValueError "Username already registered") →
  ∃ content,
    network (register_request username password base_url)
    = Responded {| status_code := 400; response_body := content |}.
Proof.
  unfold register_user, requests_send.
  destruct (network _) as [[status content]|why];
    cbn [mbind result_bind status_code]; [|done].
  unfold response_json. cbn [response_body]. case_decide as Hstatus.
  - by destruct content.
  - destruct content as [error_data|why]; cbn [mbind result_bind]; [|done].
    case_decide as H400; [subst; by eexists|]. cbn [mbind result_bind].
    destruct error_data; cbn [py_get mbind result_bind];
      first [done | by intros [= ?]].
Qed.

(** X17. On a 400 whose detail is a text, the duplicate-username error is
    raised as soon as the phrase "Username already registered" stands
    anywhere in that text, whatever surrounds it. *)
Theorem register_duplicate_substring (error_data : gmap string json)
    before after :
  network (register_request username password base_url)
  = Responded {| status_code := 400;
                 response_body := JsonBody (JDict error_data) |} →
  error_data !! "detail"
  = Some (JStr (before +:+ "Username already registered" +:+ after)) →
  register_user network py_repr username password base_url
  = Raise (ValueError "Username already registered").
Proof.
  intros Hnet Hdetail. unfold register_user, requests_send.
  rewrite Hnet, bind_Ok. cbn [status_code]. case_decide; [done|].
  unfold response_json. cbn [response_body]. rewrite bind_Ok.
  case_decide; [|done]. cbn [py_get]. rewrite Hdetail.
  cbn [default from_option id mbind result_bind py_in].
  by rewrite contains_infix.
Qed.

(** X18. A non-200 response whose body is JSON but no object makes
    [register_user] raise [AttributeError]: [.get] is called on it outside
    any [try]. *)
Theorem register_user_non_object_error_body status v :
  status ≠ 200%Z →
  (∀ d, v ≠ JDict d) →
  network (register_request username password base_url)
  = Responded {| status_code := status; response_body := JsonBody v |} →
  register_user network py_repr username password base_url
  = Raise AttributeError.
Proof.
  intros Hstatus Hv Hnet. unfold register_user, requests_send.
  rewrite Hnet, bind_Ok. cbn [status_code]. case_decide; [done|].
  unfold response_json. cbn [response_body]. rewrite bind_Ok.
  destruct v as [| | | | | |d]; try (by case_decide).
  by destruct (Hv d).
Qed.

End RegisterUserMore.

(** ** Beyond the claims: the validation messages can be read back *)

Lemma pretty_N_char_digit (x : N) : is_digit (pretty_N_char x) = true.
Proof. unfold pretty_N_char. by repeat case_match. Qed.

Lemma pretty_N_go_digits (x : N) (s : string) :
  all_digits s = true → all_digits (pretty_N_go x s) = true.
Proof.
  revert s. induction (N.lt_wf_0 x) as [x _ IH]. intros s Hs.
  destruct (decide (x = 0)%N) as [->|Hx].
  - by rewrite pretty_N_go_0.
  - rewrite pretty_N_go_step by lia. apply IH.
    + apply N.div_lt; lia.
    + cbn [all_digits]. by rewrite pretty_N_char_digit.
Qed.

(** An index is rendered with decimal digits only. *)
Lemma pretty_nat_digits (i : nat) : all_digits (pretty i) = true.
Proof.
  unfold pretty, pretty_nat, pretty, pretty_N.
  case_decide; [done|]. by apply pretty_N_go_digits.
Qed.

(** Two runs of digits, each closed by the same non-digit, are read back
    without ambiguity. *)
Lemma digits_delimited (s1 s2 : string) (c : ascii) (t1 t2 : string) :
  all_digits s1 = true → all_digits s2 = true → is_digit c = false →
  s1 +:+ String c t1 = s2 +:+ String c t2 →
  s1 = s2 ∧ t1 = t2.
Proof.
  revert s2. induction s1 as [|a s1 IH]; intros [|b s2] H1 H2 Hc.
  - by intros [= ->].
  - intros [= -> _]. cbn [all_digits] in H2.
    apply andb_prop in H2 as [Hb _]. congruence.
  - intros [= -> _]. cbn [all_digits] in H1.
    apply andb_prop in H1 as [Ha _]. congruence.
  - intros [= -> Hrest]. cbn [all_digits] in H1, H2.
    apply andb_prop in H1 as [_ H1]. apply andb_prop in H2 as [_ H2].
    destruct (IH s2 H1 H2 Hc Hrest) as [-> ->]. done.
Qed.

(** X19. The messages of [fetch_polls_with_validation] about a missing field
    identify what they report: a poll-level message determines the poll
    index and the field, an option-level message determines the poll index,
    the option index and the field, and no poll-level message is also an
    option-level one. *)
Theorem validation_messages_unambiguous :
  (∀ i field i' field',
     poll_missing i field = poll_missing i' field' →
     i = i' ∧ field = field')
  ∧ (∀ i j field i' j' field',
       option_missing i j field = option_missing i' j' field' →
       i = i' ∧ j = j' ∧ field = field')
  ∧ (∀ i field i' j' field',
       poll_missing i field ≠ option_missing i' j' field').
Proof.
  split; [|split].
  - intros i field i' field' Heq. unfold poll_missing in Heq.
    apply (inj (String.append "Poll at index ")) in Heq.
    apply (digits_delimited _ _ " "%char
             ("is missing required field: " +:+ field)
             ("is missing required field: " +:+ field')) in Heq
      as [Hi Hfield]; [|apply pretty_nat_digits..|done].
    apply (inj pretty) in Hi.
    by apply (inj (String.append "is missing required field: ")) in Hfield.
  - intros i j field i' j' field' Heq. unfold option_missing in Heq.
    apply (inj (String.append "Poll ")) in Heq.
    apply (digits_delimited _ _ ","%char
             (" option " +:+ pretty j
                +:+ " is missing required field: " +:+ field)
             (" option " +:+ pretty j'
                +:+ " is missing required field: " +:+ field')) in Heq
      as [Hi Hrest]; [|apply pretty_nat_digits..|done].
    apply (inj pretty) in Hi.
    apply (inj (String.append " option ")) in Hrest.
    apply (digits_delimited _ _ " "%char
             ("is missing required field: " +:+ field)
             ("is missing required field: " +:+ field')) in Hrest
      as [Hj Hfield]; [|apply pretty_nat_digits..|done].
    apply (inj pretty) in Hj.
    by apply (inj (String.append "is missing required field: ")) in Hfield.
  - intros i field i' j' field'. unfold poll_missing, option_missing.
    destruct (pretty_nat_head i') as (c & rest & -> & Hc).
    intros [= Heq]. by destruct Hc.
Qed.

(** ** The further scenarios, run *)

Lemma fetch_polls_not_a_list_witness :
  (∀ polls, JDict results_example ≠ JList polls)
  ∧ fetch_polls (answers 200 (JsonBody (JDict results_example))) no_repr
      0 10 localhost
    = Raise (ValueError "Expected a list of polls in the response").
Proof.
  assert (∀ polls, JDict results_example ≠ JList polls) as Hv by discriminate.
  split; [exact Hv|].
  exact (fetch_polls_not_a_list
           (answers 200 (JsonBody (JDict results_example))) no_repr
           0 10 localhost (JDict results_example) eq_refl Hv).
Defined.

Lemma http_error_raises_ValueError_witness :
  503%Z ≠ 200%Z
  ∧ (∃ msg, fetch_polls (answers 503 empty_body) no_repr 0 10 localhost
            = Raise (ValueError msg))
  ∧ (∃ msg, vote_on_poll (answers 503 empty_body) no_repr 1 2 "tok" localhost
            = Raise (ValueError msg))
  ∧ (∃ msg, get_poll_results (answers 503 empty_body) no_repr 1 localhost
            = Raise (ValueError msg)).
Proof.
  assert (503%Z ≠ 200%Z) as Hstatus by discriminate.
  destruct (http_error_raises_ValueError
              (answers 503 empty_body) no_repr 503 empty_body Hstatus)
    as (Hfetch & Hvote & Hresults).
  split; [exact Hstatus|].
  split; [exact (Hfetch 0%Z 10%Z localhost eq_refl)|].
  split; [exact (Hvote 1%Z 2%Z "tok" localhost eq_refl)|].
  exact (Hresults 1%Z localhost eq_refl).
Defined.

Lemma error_detail_reported_witness :
  409%Z ≠ 200%Z
  ∧ fetch_polls (answers 409 (JsonBody (JDict closed_detail))) no_repr
      0 10 localhost
    = Raise (ValueError "Failed to fetch polls: Poll is closed")
  ∧ vote_on_poll (answers 409 (JsonBody (JDict closed_detail))) no_repr
      1 2 "tok" localhost
    = Raise (ValueError "Failed to vote on poll: Poll is closed")
  ∧ get_poll_results (answers 409 (JsonBody (JDict closed_detail))) no_repr
      1 localhost
    = Raise (ValueError "Failed to get poll results: Poll is closed").
Proof.
  assert (409%Z ≠ 200%Z) as Hstatus by discriminate.
  destruct (error_detail_reported
              (answers 409 (JsonBody (JDict closed_detail))) no_repr
              409 closed_detail Hstatus)
    as (Hfetch & Hvote & Hresults).
  split; [exact Hstatus|].
  split; [exact (Hfetch 0%Z 10%Z localhost eq_refl)|].
  split.
  { apply (Hvote 1%Z 2%Z "tok" localhost); [discriminate..|reflexivity]. }
  apply (Hresults 1%Z localhost); [discriminate|reflexivity].
Defined.

Lemma non_object_error_body_falls_back_witness :
  500%Z ≠ 200%Z
  ∧ (∀ d, JList [] ≠ JDict d)
  ∧ fetch_polls (answers 500 (JsonBody (JList []))) no_repr 0 10 localhost
    = Raise (ValueError "Failed to fetch polls: HTTP 500")
  ∧ vote_on_poll (answers 500 (JsonBody (JList []))) no_repr
      1 2 "tok" localhost
    = Raise (ValueError "Failed to vote on poll: HTTP 500")
  ∧ get_poll_results (answers 500 (JsonBody (JList []))) no_repr 1 localhost
    = Raise (ValueError "Failed to get poll results: HTTP 500").
Proof.
  assert (500%Z ≠ 200%Z) as Hstatus by discriminate.
  assert (∀ d, JList [] ≠ JDict d) as Hv by discriminate.
  destruct (non_object_error_body_falls_back
              (answers 500 (JsonBody (JList []))) no_repr
              500 (JList []) Hstatus Hv)
    as (Hfetch & Hvote & Hresults).
  split; [exact Hstatus|]. split; [exact Hv|].
  split; [exact (Hfetch 0%Z 10%Z localhost eq_refl)|].
  split.
  { apply (Hvote 1%Z 2%Z "tok" localhost); [discriminate..|reflexivity]. }
  apply (Hresults 1%Z localhost); [discriminate|reflexivity].
Defined.

Lemma transport_failure_reported_witness :
  fetch_polls (unreachable "Connection refused") no_repr 0 10 localhost
  = Raise (RequestException "Request failed: Connection refused")
  ∧ vote_on_poll (unreachable "Connection refused") no_repr
      1 2 "tok" localhost
    = Raise (RequestException "Request failed: Connection refused")
  ∧ get_poll_results (unreachable "Connection refused") no_repr 1 localhost
    = Raise (RequestException "Request failed: Connection refused")
  ∧ register_user (unreachable "Connection refused") no_repr
      "alice" "pw123" localhost
    = Raise (RequestException "Connection refused").
Proof.
  destruct (transport_failure_reported
              (unreachable "Connection refused") no_repr "Connection refused")
    as (Hfetch & Hvote & Hresults & Hregister).
  split; [exact (Hfetch 0%Z 10%Z localhost eq_refl)|].
  split; [exact (Hvote 1%Z 2%Z "tok" localhost eq_refl)|].
  split; [exact (Hresults 1%Z localhost eq_refl)|].
  exact (Hregister "alice" "pw123" localhost eq_refl).
Defined.

Lemma validated_polls_sound_witness :
  fetch_polls_with_validation
    (answers 200 (JsonBody (JList [poll_example]))) no_repr 0 10 localhost
  = Ok [poll_example]
  ∧ fetch_polls (answers 200 (JsonBody (JList [poll_example]))) no_repr
      0 10 localhost
    = Ok [poll_example]
  ∧ ∀ i poll, [poll_example] !! i = Some poll →
      ∃ (d : gmap string json) options,
        poll = JDict d
        ∧ poll_fields_ok d = true
        ∧ d !! "options" = Some (JList options)
        ∧ ∀ j (o : gmap string json),
            options !! j = Some (JDict o) →
            well_formed_option (JDict o) = true.
Proof.
  assert (fetch_polls_with_validation
            (answers 200 (JsonBody (JList [poll_example]))) no_repr
            0 10 localhost
          = Ok [poll_example]) as Hrun by (vm_compute; reflexivity).
  split; [exact Hrun|].
  exact (validated_polls_sound
           (answers 200 (JsonBody (JList [poll_example]))) no_repr
           0 10 localhost [poll_example] Hrun).
Defined.

Lemma scalar_poll_raises_TypeError_witness :
  is_scalar JNull = true
  ∧ forallb well_formed_poll (take 1 polls_second_is_null) = true
  ∧ fetch_polls_with_validation
      (answers 200 (JsonBody (JList polls_second_is_null))) no_repr
      0 10 localhost
    = Raise TypeError.
Proof.
  assert (forallb well_formed_poll (take 1 polls_second_is_null) = true)
    as Hprefix by (vm_compute; reflexivity).
  split; [reflexivity|]. split; [exact Hprefix|].
  exact (scalar_poll_raises_TypeError
           (answers 200 (JsonBody (JList polls_second_is_null))) no_repr
           0 10 localhost polls_second_is_null 1 JNull
           eq_refl eq_refl eq_refl Hprefix).
Defined.

Lemma vote_Ok_inv_witness :
  vote_on_poll (answers 200 (JsonBody (JDict vote_example))) no_repr
    1 2 "tok" localhost
  = Ok (JDict vote_example)
  ∧ answers 200 (JsonBody (JDict vote_example))
      (vote_request 1 2 "tok" localhost)
    = Responded {| status_code := 200;
                   response_body := JsonBody (JDict vote_example) |}
  ∧ is_scalar (JDict vote_example) = false
  ∧ ∀ d, JDict vote_example = JDict d →
      forallb (has_field d) vote_required_fields = true.
Proof.
  assert (vote_on_poll (answers 200 (JsonBody (JDict vote_example))) no_repr
            1 2 "tok" localhost
          = Ok (JDict vote_example)) as Hrun by (vm_compute; reflexivity).
  split; [exact Hrun|].
  exact (vote_Ok_inv (answers 200 (JsonBody (JDict vote_example))) no_repr
           1 2 "tok" localhost (JDict vote_example) Hrun).
Defined.

Lemma vote_missing_field_witness :
  first_violation vote_required_fields [] vote_without_option
    (Missing "option_id")
  ∧ vote_on_poll (answers 200 (JsonBody (JDict vote_without_option))) no_repr
      1 2 "tok" localhost
    = Raise (ValueError "Invalid response: missing field 'option_id'").
Proof.
  assert (first_violation vote_required_fields [] vote_without_option
            (Missing "option_id")) as Hfield.
  { apply (first_missing _ _ _ ["id"; "user_id"] "option_id" ["created_at"]).
    - reflexivity.
    - vm_compute. reflexivity.
    - vm_compute. reflexivity. }
  split; [exact Hfield|].
  exact (vote_missing_field
           (answers 200 (JsonBody (JDict vote_without_option))) no_repr
           1 2 "tok" localhost vote_without_option "option_id"
           eq_refl Hfield).
Defined.

Lemma vote_fixed_errors_only_on_their_status_witness :
  vote_on_poll (answers 401 empty_body) no_repr 1 2 "tok" localhost
  = Raise (ValueError "Unauthorized: Invalid or expired access token")
  ∧ ∃ content,
      answers 401 empty_body (vote_request 1 2 "tok" localhost)
      = Responded {| status_code := 401; response_body := content |}.
Proof.
  assert (vote_on_poll (answers 401 empty_body) no_repr 1 2 "tok" localhost
          = Raise (ValueError "Unauthorized: Invalid or expired access token"))
    as Hrun by (vm_compute; reflexivity).
  split; [exact Hrun|].
  exact (proj1 (vote_fixed_errors_only_on_their_status
                  (answers 401 empty_body) no_repr 1 2 "tok" localhost) Hrun).
Defined.

Lemma results_Ok_inv_witness :
  get_poll_results (answers 200 (JsonBody (JDict results_example))) no_repr
    1 localhost
  = Ok (JDict results_example)
  ∧ ∃ (data : gmap string json) entries,
      JDict results_example = JDict data
      ∧ answers 200 (JsonBody (JDict results_example))
          (results_request 1 localhost)
        = Responded {| status_code := 200;
                       response_body := JsonBody (JDict data) |}
      ∧ forallb (has_field data) results_required_fields = true
      ∧ data !! "results" = Some (JList entries)
      ∧ forallb well_formed_result entries = true.
Proof.
  assert (get_poll_results (answers 200 (JsonBody (JDict results_example)))
            no_repr 1 localhost
          = Ok (JDict results_example)) as Hrun by (vm_compute; reflexivity).
  split; [exact Hrun|].
  exact (results_Ok_inv (answers 200 (JsonBody (JDict results_example)))
           no_repr 1 localhost (JDict results_example) Hrun).
Defined.

Lemma results_not_found_only_on_404_witness :
  get_poll_results (answers 404 empty_body) no_repr 1 localhost
  = Raise (ValueError "Poll not found")
  ∧ ∃ content,
      answers 404 empty_body (results_request 1 localhost)
      = Responded {| status_code := 404; response_body := content |}.
Proof.
  assert (get_poll_results (answers 404 empty_body) no_repr 1 localhost
          = Raise (ValueError "Poll not found"))
    as Hrun by (vm_compute; reflexivity).
  split; [exact Hrun|].
  exact (results_not_found_only_on_404
           (answers 404 empty_body) no_repr 1 localhost Hrun).
Defined.

Lemma register_duplicate_only_on_400_witness :
  register_user (answers 400 (JsonBody (JDict duplicate_detail))) no_repr
    "alice" "pw123" localhost
  = Raise (ValueError "Username already registered")
  ∧ ∃ content,
      answers 400 (JsonBody (JDict duplicate_detail))
        (register_request "alice" "pw123" localhost)
      = Responded {| status_code := 400; response_body := content |}.
Proof.
  assert (register_user (answers 400 (JsonBody (JDict duplicate_detail)))
            no_repr "alice" "pw123" localhost
          = Raise (ValueError "Username already registered"))
    as Hrun by (vm_compute; reflexivity).
  split; [exact Hrun|].
  exact (register_duplicate_only_on_400
           (answers 400 (JsonBody (JDict duplicate_detail))) no_repr
           "alice" "pw123" localhost Hrun).
Defined.

Lemma register_duplicate_substring_witness :
  duplicate_detail_embedded !! "detail"
  = Some (JStr ("Error: " +:+ "Username already registered" +:+ "."))
  ∧ register_user
      (answers 400 (JsonBody (JDict duplicate_detail_embedded))) no_repr
      "alice" "pw123" localhost
    = Raise (ValueError "Username already registered").
Proof.
  assert (duplicate_detail_embedded !! "detail"
          = Some (JStr ("Error: " +:+ "Username already registered" +:+ ".")))
    as Hdetail by (vm_compute; reflexivity).
  split; [exact Hdetail|].
  exact (register_duplicate_substring
           (answers 400 (JsonBody (JDict duplicate_detail_embedded))) no_repr
           "alice" "pw123" localhost duplicate_detail_embedded
           "Error: " "." eq_refl Hdetail).
Defined.

Lemma register_user_non_object_error_body_witness :
  500%Z ≠ 200%Z
  ∧ (∀ d, JList [] ≠ JDict d)
  ∧ register_user (answers 500 (JsonBody (JList []))) no_repr
      "alice" "pw123" localhost
    = Raise AttributeError.
Proof.
  assert (500%Z ≠ 200%Z) as Hstatus by discriminate.
  assert (∀ d, JList [] ≠ JDict d) as Hv by discriminate.
  split; [exact Hstatus|]. split; [exact Hv|].
  exact (register_user_non_object_error_body
           (answers 500 (JsonBody (JList []))) no_repr
           "alice" "pw123" localhost 500 (JList []) Hstatus Hv eq_refl).
Defined.

Lemma register_user_undecodable_error_body_witness :
  500%Z ≠ 200%Z
  ∧ register_user (answers 500 empty_body) no_repr "alice" "pw123" localhost
    = Raise (JSONDecodeError "Expecting value: line 1 column 1 (char 0)").
Proof.
  assert (500%Z ≠ 200%Z) as Hstatus by discriminate.
  split; [exact Hstatus|].
  exact (register_user_undecodable_error_body
           (answers 500 empty_body) no_repr "alice" "pw123" localhost
           500 "Expecting value: line 1 column 1 (char 0)" Hstatus eq_refl).
Defined.

(** ** [get_poll_results] and [register_user] on every decodable body *)



Section EveryDecodableBody.

Context (network : request → reply) (py_repr : json → string).



(** On a non-200 response [register_user] returns nothing. *)
Lemma register_user_http_error_raises username password base_url
    status content v :
  status ≠ 200%Z →
  network (register_request username password base_url)
  = Responded {| status_code := status; response_body := content |} →
  register_user network py_repr username password base_url ≠ Ok v.
Proof.
  intros Hstatus Hnet. unfold register_user, requests_send.
  rewrite Hnet, bind_Ok. cbn [status_code]. case_decide; [done|].
  unfold response_json. cbn [response_body].
  destruct content as [error_data|why]; cbn [mbind result_bind]; [|done].
  destruct (if decide (status = 400%Z) then _ else _) as [[]|e];
    cbn [mbind result_bind]; try done.
  by destruct (py_get error_data "detail" (JStr "Unknown error")).
Qed.

(** C6, as the code has it.  A non-200 response to [register_user] never
    yields a result.  When its body is a JSON object: (1) at status 400 a
    detail text containing "Username already registered" raises the
    duplicate-username error; (2) any other detail text, or the same text at
    another status, raises the generic registration error carrying it;
    (3) without a detail field the generic error carries "Unknown error";
    (4) at a status other than 400 a detail of any type is carried as its
    [str()]; (5) at status 400 a detail that is [null], a boolean or a
    number makes the search of the phrase raise [TypeError]. *)
Theorem register_user_error_outcomes username password base_url
    status content :
  status ≠ 200%Z →
  network (register_request username password base_url)
  = Responded {| status_code := status; response_body := content |} →
  (∀ v, register_user network py_repr username password base_url ≠ Ok v)
  ∧ ∀ error_data : gmap string json,
      content = JsonBody (JDict error_data) →
      (∀ detail,
         error_data !! "detail" = Some (JStr detail) →
         status = 400%Z →
         contains "Username already registered" detail = true →
         register_user network py_repr username password base_url
         = Raise (ValueError "Username already registered"))
      ∧ (∀ detail,
           error_data !! "detail" = Some (JStr detail) →
           ¬ (status = 400%Z
              ∧ contains "Username already registered" detail = true) →
           register_user network py_repr username password base_url
           = Raise (ValueError ("Registration failed: " +:+ detail)))
      ∧ (error_data !! "detail" = None →
         register_user network py_repr username password base_url
         = Raise (ValueError "Registration failed: Unknown error"))
      ∧ (∀ detail,
           error_data !! "detail" = Some detail →
           status ≠ 400%Z →
           register_user network py_repr username password base_url
           = Raise (ValueError
                      ("Registration failed: " +:+ py_str py_repr detail)))
      ∧ (∀ detail,
           error_data !! "detail" = Some detail →
           status = 400%Z →
           is_scalar detail = true →
           register_user network py_repr username password base_url
           = Raise TypeError).
Proof.
  intros Hstatus Hnet. split.
  - intros v. by eapply register_user_http_error_raises.
  - intros error_data ->.
    destruct (register_user_error_mapping network py_repr
                username password base_url status error_data Hstatus Hnet)
      as (H1 & H2 & H3).
    repeat (split; [assumption|]).
    unfold register_user, requests_send.
    rewrite Hnet, bind_Ok. cbn [status_code]. case_decide; [done|].
    unfold response_json. cbn [response_body]. rewrite bind_Ok.
    cbn [py_get]. split.
    + intros detail -> H400. case_decide; [done|].
      by cbn [default from_option id mbind result_bind].
    + intros detail -> H400 Hscalar. case_decide; [|done].
      cbn [default from_option id mbind result_bind].
      by destruct detail.
Qed.

End EveryDecodableBody.


(** C6 as stated fails.  A 400 whose body is the JSON object
    [{"detail": null}] raises neither registration error: searching the
    phrase in [None] raises [TypeError]. *)
Lemma null_detail_raises_TypeError :
  register_user (answers 400 (JsonBody (JDict null_detail))) no_repr
    "alice" "pw123" localhost
  = Raise TypeError
  ∧ ∀ msg,
      register_user (answers 400 (JsonBody (JDict null_detail))) no_repr
        "alice" "pw123" localhost
      ≠ Raise (ValueError msg).
Proof.
  assert (register_user (answers 400 (JsonBody (JDict null_detail))) no_repr
            "alice" "pw123" localhost
          = Raise TypeError) as Hrun by (vm_compute; reflexivity).
  split; [exact Hrun|]. intros msg. by rewrite Hrun.
Qed.


Lemma register_user_error_outcomes_witness :
  400%Z ≠ 200%Z
  ∧ register_user (answers 400 (JsonBody (JDict duplicate_detail))) no_repr
      "alice" "pw123" localhost
    = Raise (ValueError "Username already registered")
  ∧ register_user (answers 400 (JsonBody (JDict null_detail))) no_repr
      "alice" "pw123" localhost
    = Raise TypeError.
Proof.
  assert (400%Z ≠ 200%Z) as Hstatus by discriminate.
  destruct (register_user_error_outcomes
              (answers 400 (JsonBody (JDict duplicate_detail))) no_repr
              "alice" "pw123" localhost 400
              (JsonBody (JDict duplicate_detail)) Hstatus eq_refl)
    as [_ Hobject].
  destruct (Hobject duplicate_detail eq_refl) as (Hduplicate & _).
  destruct (register_user_error_outcomes
              (answers 400 (JsonBody (JDict null_detail))) no_repr
              "alice" "pw123" localhost 400
              (JsonBody (JDict null_detail)) Hstatus eq_refl)
    as [_ Hobject'].
  destruct (Hobject' null_detail eq_refl) as (_ & _ & _ & _ & Hscalar).
  split; [exact Hstatus|]. split.
  { apply (Hduplicate "Username already registered");
      [vm_compute; reflexivity|reflexivity|vm_compute; reflexivity]. }
  apply (Hscalar JNull); [vm_compute; reflexivity|reflexivity|reflexivity].
Defined.

Example second_result_lacks_text :
  get_poll_results
    (answers 200 (JsonBody (JDict results_second_lacks_text))) no_repr
    1 localhost
  = Raise (ValueError "Invalid response: result 1 missing field 'text'").
Proof. vm_compute. reflexivity. Qed.
